(** * TaskMasterAgentCore: the agent orchestrator and its weather tool

    A shallow embedding of [src/main.py]: the weather tool [get_weather],
    the tool registry [TOOLS], the orchestrator [run_agent] and the
    endpoint [handle_agent_request].

    Modelling conventions.
    - A Python [str] is a [string] whose characters are code points
      below 256.
    - A value decoded by [json.loads] (or returned by [response.json()])
      is a [pyval]; a [dict] is an association list read by first match.
    - The collaborators of the program (the Gemini client, [requests],
      [json.loads], [requests.utils.quote], [repr] of strings and floats)
      are fields of a [Collaborators] record: functions of their
      arguments, which either return or raise an exception of a class.
    - Calls to collaborators and to tool functions are recorded in a trace
      of [event]s; exceptions are values of [exn].  Output of [print] is
      not modelled. *)

From Stdlib Require Import ZArith List String Ascii Bool Lia.
From Stdlib Require Import PrimFloat DecimalString.
Import ListNotations.

#[local] Set Warnings "-register-all".
#[local] Open Scope list_scope.
#[local] Open Scope string_scope.

(** ** Strings *)

Definition dq : string := String (ascii_of_nat 34) EmptyString.
Definition nl : string := String (ascii_of_nat 10) EmptyString.
Definition degree : string := String (ascii_of_nat 176) EmptyString.

(** [str.isspace] on one character below 256: TAB..CR, FS..US, space,
    NEL and NBSP. *)
Definition isspace (c : ascii) : bool :=
  let n := nat_of_ascii c in
  ((9 <=? n)%nat && (n <=? 13)%nat) || ((28 <=? n)%nat && (n <=? 32)%nat)
  || (n =? 133)%nat || (n =? 160)%nat.

Fixpoint lstrip (s : string) : string :=
  match s with
  | EmptyString => EmptyString
  | String c s' => if isspace c then lstrip s' else s
  end.

Fixpoint rstrip (s : string) : string :=
  match s with
  | EmptyString => EmptyString
  | String c s' =>
      match rstrip s' with
      | EmptyString => if isspace c then EmptyString else String c EmptyString
      | r => String c r
      end
  end.

(** [s.strip()] *)
Definition strip (s : string) : string := rstrip (lstrip s).

(** [s.replace(old, new)]: occurrences of [old] are replaced from left to
    right, without overlap; [skip] counts the characters of a matched
    occurrence still to be dropped. *)
Fixpoint replace_from (old new : string) (skip : nat) (s : string) : string :=
  match s with
  | EmptyString => match old with EmptyString => new | _ => EmptyString end
  | String c s' =>
      match skip with
      | S k => replace_from old new k s'
      | O =>
          if prefix old s then
            match old with
            | EmptyString => new ++ String c (replace_from old new 0 s')
            | _ => new ++ replace_from old new (String.length old - 1) s'
            end
          else String c (replace_from old new 0 s')
      end
  end.

Definition replace (old new s : string) : string := replace_from old new 0 s.

(** [sub in s] on two strings *)
Fixpoint is_substring (sub s : string) : bool :=
  match s with
  | EmptyString => prefix sub EmptyString
  | String _ s' => prefix sub s || is_substring sub s'
  end.

(** [sep.join(l)] *)
Definition join (sep : string) (l : list string) : string := String.concat sep l.

(** All characters of [s] are whitespace ([s] may be empty). *)
Definition whitespace_only (s : string) : bool :=
  forallb isspace (list_ascii_of_string s).

(** ** Python values *)

Inductive pyval : Type :=
| PNone
| PBool (b : bool)
| PInt (z : Z)
| PFloat (f : float)
| PStr (s : string)
| PList (l : list pyval)
| PDict (d : list (string * pyval)).

(** [bool(v)] *)
Definition truthy (v : pyval) : bool :=
  match v with
  | PNone => false
  | PBool b => b
  | PInt z => negb (z =? 0)%Z
  | PFloat f => negb (PrimFloat.eqb f 0%float)
  | PStr s => negb (s =? "")
  | PList l => match l with [] => false | _ => true end
  | PDict d => match d with [] => false | _ => true end
  end.

(** [v == s] for a string literal [s] *)
Definition py_eq_str (v : pyval) (s : string) : bool :=
  match v with
  | PStr s' => s' =? s
  | _ => false
  end.

(** [v == 200] *)
Definition py_eq_200 (v : pyval) : bool :=
  match v with
  | PInt z => (z =? 200)%Z
  | PFloat f => PrimFloat.eqb f 200%float
  | _ => false
  end.

Fixpoint dict_lookup (k : string) (d : list (string * pyval)) : option pyval :=
  match d with
  | [] => None
  | (k', v) :: d' => if k' =? k then Some v else dict_lookup k d'
  end.

(** [d.get(k, default)] on a dict *)
Definition dict_get (k : string) (d : list (string * pyval)) (default : pyval) : pyval :=
  match dict_lookup k d with
  | Some x => x
  | None => default
  end.

Definition dict_keys (d : list (string * pyval)) : list string := map fst d.

Definition has_key (k : string) (d : list (string * pyval)) : bool :=
  existsb (fun k' => k' =? k) (dict_keys d).

(** ** Exceptions, events and the monad of the program *)

(** The exception classes the handlers of the program tell apart; each
    constructor is the most specific of them that an exception belongs to.
    [Timeout] is [requests.exceptions.Timeout]; [RequestException] is any
    other [requests.exceptions.RequestException], such as the [HTTPError]
    of [raise_for_status]; every class is a subclass of [Exception]. *)
Inductive exn : Type :=
| Timeout
| RequestException
| KeyError
| IndexError
| JSONDecodeError
| AttributeError
| TypeError
| NameError
| OtherError.

(** What a run does to its collaborators: [LlmCall] is a call of
    [client.models.generate_content] on [contents], [ToolCall] is the call
    of the tool function on the keyword arguments, line 192, being evaluated,
    [HttpGet] is a call of [requests.get]. *)
Inductive event : Type :=
| LlmCall (contents : string)
| ToolCall (name : string) (kwargs : pyval)
| HttpGet (url : string) (timeout : Z).

Definition is_tool_call (e : event) : bool :=
  match e with ToolCall _ _ => true | _ => false end.
Definition is_http_get (e : event) : bool :=
  match e with HttpGet _ _ => true | _ => false end.

(** A computation: the calls it made, and its value or the exception it
    raised. *)
Definition M (A : Type) : Type := (list event * (exn + A))%type.

Definition ret {A} (a : A) : M A := ([], inr a).
Definition raise {A} (e : exn) : M A := ([], inl e).
Definition lift {A} (r : exn + A) : M A := ([], r).
Definition emit (e : event) : M unit := ([e], inr tt).

Definition bind {A B} (m : M A) (f : A -> M B) : M B :=
  match m with
  | (t, inl e) => (t, inl e)
  | (t, inr a) => let (t', r) := f a in ((t ++ t')%list, r)
  end.

(** [try: m except Exception as e: h e] *)
Definition try_except {A} (m : M A) (h : exn -> M A) : M A :=
  match m with
  | (t, inl e) => let (t', r) := h e in ((t ++ t')%list, r)
  | (t, inr a) => (t, inr a)
  end.

Notation "x <- m ;; k" := (bind m (fun x => k))
  (at level 61, m at next level, right associativity).
Notation "m ;;; k" := (bind m (fun _ => k))
  (at level 61, right associativity).

Definition trace {A} (m : M A) : list event := fst m.
Definition outcome {A} (m : M A) : exn + A := snd m.

(** [v.get(key, default)]: only a [dict] has the method. *)
Definition py_get (v : pyval) (key : string) (default : pyval) : M pyval :=
  match v with
  | PDict d => ret (dict_get key d default)
  | _ => raise AttributeError
  end.

(** [v[0]]: a JSON object has string keys only, so the key [0] is absent. *)
Definition py_index0 (v : pyval) : M pyval :=
  match v with
  | PList (x :: _) => ret x
  | PList [] => raise IndexError
  | PStr (String c _) => ret (PStr (String c EmptyString))
  | PStr EmptyString => raise IndexError
  | PDict _ => raise KeyError
  | _ => raise TypeError
  end.

(** [param in v]: key of a dict, element of a list, substring of a string;
    the other values are not containers. *)
Definition py_contains (param : string) (v : pyval) : M bool :=
  match v with
  | PDict d => ret (has_key param d)
  | PList l => ret (existsb (fun x => py_eq_str x param) l)
  | PStr s => ret (is_substring param s)
  | _ => raise TypeError
  end.

(** [hash(v)] succeeds. *)
Definition hashable (v : pyval) : bool :=
  match v with
  | PList _ | PDict _ => false
  | _ => true
  end.

(** ** Collaborators *)

(** What [requests.get] returns: the status and what [response.json()]
    does, which is to return the decoded body or to raise.  The decoding
    error that [requests] raises on a body that is no JSON is a
    [RequestException]. *)
Record http_response : Type := {
  status_code : Z;
  json : exn + pyval
}.

Record Collaborators : Type := {
  (** [os.getenv("OPENWEATHERMAP_API_KEY")] *)
  WEATHER_API_KEY : string;
  (** [requests.utils.quote], which returns on every string of this
      model (code points below 256); the [UnicodeEncodeError] that it
      raises on a lone surrogate is outside the model *)
  quote : string -> string;
  (** [repr] of a [str] and of a [float] *)
  repr_str : string -> string;
  repr_float : float -> string;
  (** [json.loads]: [None] is [json.JSONDecodeError] *)
  json_loads : string -> option pyval;
  (** [client.models.generate_content(model=model_name, contents=...,
      config=generation_config)]: raises, or returns a response whose
      [.text] is a string or [None].  The two prompts of a run differ in
      their first line, so the answers to the two calls are independent. *)
  generate_content : string -> exn + option string;
  (** [requests.get(url, timeout=...)] *)
  requests_get : string -> Z -> exn + http_response
}.

(** ** The program *)

Section Agent.

Variable env : Collaborators.

(** [repr(v)] *)
Fixpoint py_repr (v : pyval) : string :=
  match v with
  | PNone => "None"
  | PBool b => if b then "True" else "False"
  | PInt z => NilEmpty.string_of_int (Z.to_int z)
  | PFloat f => repr_float env f
  | PStr s => repr_str env s
  | PList l => "[" ++ join ", " (map py_repr l) ++ "]"
  | PDict d =>
      "{" ++ join ", "
        (map (fun kv => match kv with (k, x) => repr_str env k ++ ": " ++ py_repr x end) d)
      ++ "}"
  end.

(** [str(v)], which is how an f-string formats [{v}] *)
Definition py_str (v : pyval) : string :=
  match v with
  | PStr s => s
  | _ => py_repr v
  end.

(** *** Tool functions (main.py, lines 49-106) *)

Definition err_no_location : string :=
  "Error: Please specify a location for the weather.".
Definition err_not_found (location : string) : string :=
  "Error: Sorry, I couldn't find weather data for the city '" ++ location
  ++ "'. Please check the spelling.".
Definition err_api (error_message : pyval) : string :=
  "Error: Could not retrieve weather data. API reported: " ++ py_str error_message.
Definition err_timeout : string :=
  "Error: The weather service took too long to respond. Please try again later.".
Definition err_connection : string :=
  "Error: Could not connect to the weather service. Please check your connection or try again later.".
Definition err_format : string :=
  "Error: Received an unexpected response format from the weather service.".
Definition err_unexpected : string :=
  "Error: An unexpected error occurred while fetching weather data.".

(** The sentence of lines 78-82. *)
Definition weather_sentence
    (city_name description temperature feels_like humidity : pyval) : string :=
  "The weather in " ++ py_str city_name ++ " is currently " ++ py_str description ++ " "
  ++ "with a temperature of " ++ py_str temperature ++ degree ++ "C (feels like "
  ++ py_str feels_like ++ degree ++ "C) "
  ++ "and humidity of " ++ py_str humidity ++ "%.".

Definition complete_url (location : string) : string :=
  let base_url := "http://api.openweathermap.org/data/2.5/weather?" in
  base_url ++ "appid=" ++ WEATHER_API_KEY env ++ "&q=" ++ quote env location
  ++ "&units=metric".

(** [response.raise_for_status()]: [HTTPError], a [RequestException], for
    a status from 400 to 599. *)
Definition raise_for_status (r : http_response) : M unit :=
  if ((400 <=? status_code r) && (status_code r <? 600))%Z
  then raise RequestException else ret tt.

(** Lines 62-92: the body of the [try]. *)
Definition fetch_weather (location : string) : M string :=
  emit (HttpGet (complete_url location) 10) ;;;
  response <- lift (requests_get env (complete_url location) 10) ;;
  (if (500 <=? status_code response)%Z then raise_for_status response else ret tt) ;;;
  data <- lift (json response) ;;
  cod <- py_get data "cod" PNone ;;
  if py_eq_200 cod then
    main <- py_get data "main" (PDict []) ;;
    weather_list <- py_get data "weather" (PList []) ;;
    temperature <- py_get main "temp" (PStr "N/A") ;;
    feels_like <- py_get main "feels_like" (PStr "N/A") ;;
    humidity <- py_get main "humidity" (PStr "N/A") ;;
    description <-
      (if truthy weather_list
       then w <- py_index0 weather_list ;; py_get w "description" (PStr "N/A")
       else ret (PStr "N/A")) ;;
    city_name <- py_get data "name" (PStr location) ;;
    ret (weather_sentence city_name description temperature feels_like humidity)
  else if py_eq_str cod "404" then
    ret (err_not_found location)
  else
    error_message <- py_get data "message" (PStr "Unknown API error") ;;
    ret (err_api error_message).

(** Lines 94-106: the handlers, in the order they are tried. *)
Definition weather_handler (e : exn) : M string :=
  match e with
  | Timeout => ret err_timeout
  | RequestException => ret err_connection
  | KeyError => ret err_format
  | _ => ret err_unexpected
  end.

(** [get_weather(location)].  The emptiness test of line 55 is outside
    the [try]: [location.strip()] on a value that is not a string raises
    past the function. *)
Definition get_weather (location : pyval) : M string :=
  if negb (truthy location) then ret err_no_location
  else
    match location with
    | PStr loc =>
        if strip loc =? "" then ret err_no_location
        else try_except (fetch_weather loc) weather_handler
    | _ => raise AttributeError
    end.

(** A registered function: [__code__.co_varnames], [__code__.co_argcount]
    and its body on the bound arguments. *)
Record tool_function : Type := {
  co_varnames : list string;
  co_argcount : nat;
  body : list pyval -> M string
}.

Definition get_weather_function : tool_function := {|
  co_varnames :=
    ["location"; "base_url"; "complete_url"; "response"; "data"; "main";
     "weather_list"; "temperature"; "feels_like"; "humidity"; "description";
     "city_name"; "result"; "error_message"; "e"];
  co_argcount := 1;
  body := fun args =>
    match args with
    | [location] => get_weather location
    | _ => raise TypeError
    end
|}.

(** Lines 110-112 *)
Definition TOOLS : list (string * tool_function) :=
  [("get_weather", get_weather_function)].

Definition TOOLS_keys : list string := map fst TOOLS.

Fixpoint TOOLS_lookup (name : string) (tools : list (string * tool_function))
  : option tool_function :=
  match tools with
  | [] => None
  | (k, f) :: tools' => if k =? name then Some f else TOOLS_lookup name tools'
  end.

(** [tool_function.__code__.co_varnames[:tool_function.__code__.co_argcount]] *)
Definition required_params_of (f : tool_function) : list string :=
  firstn (co_argcount f) (co_varnames f).

Fixpoint bind_arguments (names : list string) (d : list (string * pyval))
  : option (list pyval) :=
  match names with
  | [] => Some []
  | n :: ns =>
      match dict_lookup n d, bind_arguments ns d with
      | Some v, Some vs => Some (v :: vs)
      | _, _ => None
      end
  end.

(** The call of [f] on the keyword arguments [**parameters]: [TypeError]
    when [parameters] is not a mapping, has a key that is no parameter of
    [f], or lacks a parameter. *)
Definition call_with_kwargs (f : tool_function) (parameters : pyval) : M string :=
  match parameters with
  | PDict d =>
      if forallb (fun k => existsb (String.eqb k) (required_params_of f)) (dict_keys d)
      then match bind_arguments (required_params_of f) d with
           | Some args => body f args
           | None => raise TypeError
           end
      else raise TypeError
  | _ => raise TypeError
  end.

(** *** The orchestrator (main.py, lines 114-258) *)

(** Lines 127-153 *)
Definition intent_prompt (user_query : string) : string :=
  "" ++ nl ++
  "    Analyze the user's query and determine the primary intent. " ++ nl ++
  "    Based on the intent, decide if one of the available tools should be used." ++ nl ++
  "    Available tools: " ++ py_repr (PList (map PStr TOOLS_keys)) ++ nl ++
  "    " ++ nl ++
  "    User Query: " ++ dq ++ user_query ++ dq ++ nl ++
  "" ++ nl ++
  "    Respond in JSON format with the following keys:" ++ nl ++
  "    - " ++ dq ++ "tool_name" ++ dq ++ ": The name of the tool to use (from the available list) or " ++ dq ++ "none" ++ dq ++ " if no tool is needed or the intent is unclear." ++ nl ++
  "    - " ++ dq ++ "parameters" ++ dq ++ ": An object containing the necessary parameters for the tool (e.g., {" ++ dq ++ "location" ++ dq ++ ": " ++ dq ++ "City Name" ++ dq ++ "} for get_weather). If no tool is needed, this should be an empty object {}." ++ nl ++
  "" ++ nl ++
  "    Example 1:" ++ nl ++
  "    User Query: " ++ dq ++ "What's the weather like in London?" ++ dq ++ nl ++
  "    Response: {" ++ dq ++ "tool_name" ++ dq ++ ": " ++ dq ++ "get_weather" ++ dq ++ ", " ++ dq ++ "parameters" ++ dq ++ ": {" ++ dq ++ "location" ++ dq ++ ": " ++ dq ++ "London" ++ dq ++ "}}" ++ nl ++
  "" ++ nl ++
  "    Example 2:" ++ nl ++
  "    User Query: " ++ dq ++ "Tell me a joke." ++ dq ++ nl ++
  "    Response: {" ++ dq ++ "tool_name" ++ dq ++ ": " ++ dq ++ "none" ++ dq ++ ", " ++ dq ++ "parameters" ++ dq ++ ": {}}" ++ nl ++
  "    " ++ nl ++
  "    Example 3:" ++ nl ++
  "    User Query: " ++ dq ++ "What is the capital of France?" ++ dq ++ nl ++
  "    Response: {" ++ dq ++ "tool_name" ++ dq ++ ": " ++ dq ++ "none" ++ dq ++ ", " ++ dq ++ "parameters" ++ dq ++ ": {}} # No specific tool for general knowledge" ++ nl ++
  "" ++ nl ++
  "    Example 4: " ++ nl ++
  "    User Query: " ++ dq ++ "How's the weather?" ++ dq ++ nl ++
  "    Response: {" ++ dq ++ "tool_name" ++ dq ++ ": " ++ dq ++ "get_weather" ++ dq ++ ", " ++ dq ++ "parameters" ++ dq ++ ": {}} # Tool identified, but parameter missing" ++ nl ++
  "    ".

(** Lines 212-220: the prompt that carries a tool result. *)
Definition tool_result_prompt
    (user_query : string) (tool_name parameters : pyval) (tool_result : string) : string :=
  "" ++ nl ++
  "        User Query: " ++ dq ++ user_query ++ dq ++ nl ++
  "        You decided to use the tool: '" ++ py_str tool_name ++ "' with parameters: " ++ py_str parameters ++ nl ++
  "        The result from the tool is: " ++ dq ++ tool_result ++ dq ++ nl ++
  "        " ++ nl ++
  "        Based ONLY on the user query and the tool result, generate a concise and helpful natural language response for the user. " ++ nl ++
  "        - If the tool executed successfully, incorporate its result smoothly into your answer." ++ nl ++
  "        - If the tool returned an error (e.g., city not found, missing parameters, API failure), explain the error clearly and politely to the user. Do not make up information if there was an error." ++ nl ++
  "        ".

(** Lines 223-227: the prompt that asks for the missing parameters. *)
Definition missing_params_prompt
    (user_query : string) (tool_name : pyval) (required_params : list string) : string :=
  "" ++ nl ++
  "         User Query: " ++ dq ++ user_query ++ dq ++ nl ++
  "         You identified the intent requires the '" ++ py_str tool_name ++ "' tool, but the necessary parameters (" ++ join ", " required_params ++ ") were missing in the query." ++ nl ++
  "         Politely ask the user to provide the missing information. For example, if they asked for weather without a city, ask them for the city name." ++ nl ++
  "         ".

(** Lines 230-234: the conversational prompt, without a tool. *)
Definition no_tool_prompt (user_query : string) : string :=
  "" ++ nl ++
  "        User Query: " ++ dq ++ user_query ++ dq ++ nl ++
  "        No specific tool was needed or could be confidently identified to answer this query." ++ nl ++
  "        Respond directly and conversationally to the user based on their query. If it's general knowledge you might know, answer it. If not, state that you cannot perform that specific task or ask for clarification." ++ nl ++
  "        ".

Definition err_tool_failed (tool_to_use : pyval) : string :=
  "Error: Failed to execute the tool '" ++ py_str tool_to_use ++ "'.".
Definition err_missing_params (tool_to_use : pyval) (required_params : list string) : string :=
  "Error: I need more information to use the '" ++ py_str tool_to_use
  ++ "' tool. Please provide: " ++ join ", " required_params ++ ".".
Definition err_tool_unavailable (tool_to_use : pyval) : string :=
  "Error: I cannot perform that action as the tool '" ++ py_str tool_to_use
  ++ "' is not available.".
Definition final_answer_fallback : string :=
  "Sorry, I encountered an error while trying to generate a response.".

(** One call of the model, and the [.text] of what it returns; the caller
    applies a string method to it, which raises on [None]. *)
Definition generate_text (contents : string) : M string :=
  emit (LlmCall contents) ;;;
  r <- lift (generate_content env contents) ;;
  match r with
  | Some text => ret text
  | None => raise AttributeError
  end.

(** Line 165 *)
Definition clean_response_text (text : string) : string :=
  strip (replace "```" "" (replace "```json" "" (strip text))).

(** The locals that lines 155-180 leave behind; [parsed_intent] is [None]
    while the name is unbound. *)
Record intent : Type := {
  tool_to_use : pyval;
  parameters : pyval;
  parsed_intent : option pyval
}.

(** Both handlers (lines 173-180) set [tool_to_use = "none"]; [parameters]
    keeps its initial [{}], since its assignment is the last statement of
    the [try]. *)
Definition fallback_intent (parsed : option pyval) : intent :=
  {| tool_to_use := PStr "none"; parameters := PDict []; parsed_intent := parsed |}.

(** Lines 155-180.  The inner handler is the same [except] clause, reached
    after [parsed_intent] was bound. *)
Definition parse_intent (user_query : string) : M intent :=
  try_except
    (text <- generate_text (intent_prompt user_query) ;;
     let cleaned_response_text := clean_response_text text in
     parsed <- match json_loads env cleaned_response_text with
               | Some v => ret v
               | None => raise JSONDecodeError
               end ;;
     try_except
       (tool <- py_get parsed "tool_name" PNone ;;
        params <- py_get parsed "parameters" (PDict []) ;;
        ret {| tool_to_use := tool; parameters := params; parsed_intent := Some parsed |})
       (fun _ => ret (fallback_intent (Some parsed))))
    (fun _ => ret (fallback_intent None)).

(** [tool_to_use in TOOLS]: the value is hashed, then compared with the
    keys, which are strings. *)
Definition in_TOOLS (v : pyval) : M bool :=
  if hashable v then
    ret (match v with
         | PStr s => existsb (String.eqb s) TOOLS_keys
         | _ => false
         end)
  else raise TypeError.

(** [TOOLS[tool_to_use]] *)
Definition TOOLS_getitem (v : pyval) : M tool_function :=
  match v with
  | PStr s => match TOOLS_lookup s TOOLS with
              | Some f => ret f
              | None => raise KeyError
              end
  | _ => if hashable v then raise KeyError else raise TypeError
  end.

(** [all(param in parameters for param in required_params)] *)
Fixpoint all_present (required_params : list string) (parameters : pyval) : M bool :=
  match required_params with
  | [] => ret true
  | param :: rest =>
      b <- py_contains param parameters ;;
      if b then all_present rest parameters else ret false
  end.

(** The locals that lines 183-206 leave behind; [required_params] is
    [None] while the name is unbound. *)
Record execution : Type := {
  tool_after : pyval;
  tool_result : option string;
  required_params : option (list string)
}.

(** [if tool_result:] *)
Definition result_truthy (tool_result : option string) : bool :=
  match tool_result with
  | Some r => negb (r =? "")
  | None => false
  end.

(** Lines 183-206 *)
Definition execute_tool (tool_to_use parameters : pyval) : M execution :=
  registered <- (if truthy tool_to_use then in_TOOLS tool_to_use else ret false) ;;
  if registered then
    tool_function <- TOOLS_getitem tool_to_use ;;
    let required_params := required_params_of tool_function in
    ok <- all_present required_params parameters ;;
    if ok then
      result <- try_except
                  (emit (ToolCall (py_str tool_to_use) parameters) ;;;
                   call_with_kwargs tool_function parameters)
                  (fun _ => ret (err_tool_failed tool_to_use)) ;;
      ret {| tool_after := tool_to_use; tool_result := Some result;
             required_params := Some required_params |}
    else
      ret {| tool_after := PStr "none_missing_params";
             tool_result := Some (err_missing_params tool_to_use required_params);
             required_params := Some required_params |}
  else if truthy tool_to_use && negb (py_eq_str tool_to_use "none") then
    ret {| tool_after := PStr "none";
           tool_result := Some (err_tool_unavailable tool_to_use);
           required_params := None |}
  else
    ret {| tool_after := tool_to_use; tool_result := None; required_params := None |}.

(** [parsed_intent.get("tool_name", "N/A")] *)
Definition intent_tool_name (parsed_intent : option pyval) : M pyval :=
  match parsed_intent with
  | Some p => py_get p "tool_name" (PStr "N/A")
  | None => raise NameError
  end.

(** Lines 209-234 *)
Definition final_response_prompt (user_query : string) (i : intent) (x : execution)
  : M string :=
  if result_truthy (tool_result x) then
    name <- intent_tool_name (parsed_intent i) ;;
    ret (tool_result_prompt user_query name (parameters i)
           (match tool_result x with Some r => r | None => "None" end))
  else if py_eq_str (tool_after x) "none_missing_params" then
    name <- intent_tool_name (parsed_intent i) ;;
    required <- match required_params x with
                | Some r => ret r
                | None => raise NameError
                end ;;
    ret (missing_params_prompt user_query name required)
  else ret (no_tool_prompt user_query).

Record debug_info : Type := {
  debug_parsed_intent : pyval;
  debug_tool_called : pyval;
  debug_tool_parameters : pyval;
  debug_tool_result : string
}.

(** The dictionary that [run_agent] returns. *)
Record agent_result : Type := {
  response : string;
  debug : debug_info
}.

(** Lines 236-248 *)
Definition generate_final_answer (prompt : string) : M string :=
  try_except
    (text <- generate_text prompt ;; ret (strip text))
    (fun _ => ret final_answer_fallback).

(** [run_agent(user_query)] *)
Definition run_agent (user_query : string) : M agent_result :=
  i <- parse_intent user_query ;;
  x <- execute_tool (tool_to_use i) (parameters i) ;;
  prompt <- final_response_prompt user_query i x ;;
  final_answer <- generate_final_answer prompt ;;
  tool_called <- (if result_truthy (tool_result x)
                  then intent_tool_name (parsed_intent i)
                  else ret (PStr "none")) ;;
  ret {| response := final_answer;
         debug := {|
           debug_parsed_intent :=
             match parsed_intent i with Some p => p | None => PStr "Parsing Failed" end;
           debug_tool_called := tool_called;
           debug_tool_parameters := parameters i;
           debug_tool_result :=
             if result_truthy (tool_result x)
             then match tool_result x with Some r => r | None => "None" end
             else "N/A"
         |} |}.

(** *** The endpoint (main.py, lines 261-272) *)

(** What the endpoint answers: the [AgentResponse] (status 200), or the
    [HTTPException] it raises for the framework to render. *)
Inductive http_reply : Type :=
| AgentResponse (response : string) (debug_info : debug_info)
| HTTPException (status_code : Z) (detail : string).

Definition reply_status (r : http_reply) : Z :=
  match r with
  | AgentResponse _ _ => 200
  | HTTPException status _ => status
  end.

(** [handle_agent_request(request)] on [request.query] *)
Definition handle_agent_request (query : string) : list event * http_reply :=
  if (query =? "") || (strip query =? "") then
    ([], HTTPException 400 "Query cannot be empty.")
  else
    match run_agent query with
    | (t, inr result) => (t, AgentResponse (response result) (debug result))
    | (t, inl _) =>
        (t, HTTPException 500 "Internal Server Error: An unexpected error occurred.")
    end.

End Agent.

(** ** Test doubles *)

(** [repr] of a string without quotes, backslashes or control characters. *)
Definition plain_repr_str (s : string) : string := "'" ++ s ++ "'".

(** A JSON decoder that knows one text. *)
Definition parses_as (text : string) (v : pyval) (s : string) : option pyval :=
  if s =? text then Some v else None.

(** Collaborators with canned answers: the model answers [intent_reply] to
    the intent prompt and [final_reply] to any other prompt; the weather
    service answers [upstream]. *)
Definition stub (intent_reply : exn + option string) (loads : string -> option pyval)
    (final_reply : exn + option string) (upstream : exn + http_response)
  : Collaborators := {|
  WEATHER_API_KEY := "KEY";
  quote := fun s => s;
  repr_str := plain_repr_str;
  repr_float := fun _ => "0.0";
  json_loads := loads;
  generate_content := fun contents =>
    if prefix (nl ++ "    Analyze") contents then intent_reply else final_reply;
  requests_get := fun _ _ => upstream
|}.

Definition says (text : string) : exn + option string := inr (Some text).

Definition no_upstream : exn + http_response := inl RequestException.

(** The JSON text of an object with the entries [tool_name] and
    [parameters], given the text of the two values. *)
Definition intent_text (tool_name parameters : string) : string :=
  "{" ++ dq ++ "tool_name" ++ dq ++ ": " ++ tool_name ++ ", "
  ++ dq ++ "parameters" ++ dq ++ ": " ++ parameters ++ "}".

Definition quoted (s : string) : string := dq ++ s ++ dq.

(** The model answers the intent prompt with the text of [tool_name] and
    [parameters], which decode to [tool] and [params]; it answers
    [final] to the final prompt. *)
Definition intent_env (tool_name parameters : string) (tool params : pyval)
    (final : string) (upstream : exn + http_response) : Collaborators :=
  stub (says (intent_text tool_name parameters))
       (parses_as (intent_text tool_name parameters)
          (PDict [("tool_name", tool); ("parameters", params)]))
       (says final) upstream.

Definition parsed_as (tool params : pyval) : intent :=
  {| tool_to_use := tool; parameters := params;
     parsed_intent := Some (PDict [("tool_name", tool); ("parameters", params)]) |}.

(** [{"tool_name": "get_weather", "parameters": {}}] *)
Definition env_no_params : Collaborators :=
  intent_env (quoted "get_weather") "{}" (PStr "get_weather") (PDict [])
    "Which city do you mean?" no_upstream.

(** [{"tool_name": "get_weather", "parameters": null}] *)
Definition env_null_params : Collaborators :=
  intent_env (quoted "get_weather") "null" (PStr "get_weather") PNone
    "Which city do you mean?" no_upstream.

(** [{"tool_name": "send_email", "parameters": {}}] *)
Definition env_unknown_tool : Collaborators :=
  intent_env (quoted "send_email") "{}" (PStr "send_email") (PDict [])
    "I cannot send email." no_upstream.


(** [{"tool_name": "get_weather"}]: the key [parameters] is absent. *)
Definition text_no_parameters_key : string :=
  "{" ++ dq ++ "tool_name" ++ dq ++ ": " ++ quoted "get_weather" ++ "}".
Definition env_no_parameters_key : Collaborators :=
  stub (says text_no_parameters_key)
       (parses_as text_no_parameters_key (PDict [("tool_name", PStr "get_weather")]))
       (says "Which city do you mean?") no_upstream.

(** [{"parameters": {"location": "Paris"}}]: the key [tool_name] is
    absent. *)
Definition text_no_tool_name_key : string :=
  "{" ++ dq ++ "parameters" ++ dq ++ ": {" ++ quoted "location" ++ ": "
  ++ quoted "Paris" ++ "}}".
Definition env_no_tool_name_key : Collaborators :=
  stub (says text_no_tool_name_key)
       (parses_as text_no_tool_name_key
          (PDict [("parameters", PDict [("location", PStr "Paris")])]))
       (says "Hello.") no_upstream.

(** [{"tool_name": ["get_weather"], "parameters": {}}] *)
Definition env_list_tool_name : Collaborators :=
  intent_env ("[" ++ quoted "get_weather" ++ "]") "{}"
    (PList [PStr "get_weather"]) (PDict []) "Hello." no_upstream.


(** [{"tool_name": "get_weather", "parameters": {"location": 75001}}] *)
Definition number_params : list (string * pyval) := [("location", PInt 75001)].
Definition env_number_location : Collaborators :=
  intent_env (quoted "get_weather") ("{" ++ quoted "location" ++ ": 75001}")
    (PStr "get_weather") (PDict number_params) "I could not look up the weather."
    no_upstream.


(** [{"tool_name": "none", "parameters": {}}] *)
Definition env_none : Collaborators :=
  intent_env (quoted "none") "{}" (PStr "none") (PDict []) "Why did the chicken..."
    no_upstream.

(** Bodies of the weather service: an unknown city, a refused key, and a
    [weather] entry that is an object. *)
Definition not_found_body : list (string * pyval) :=
  [("cod", PStr "404"); ("message", PStr "city not found")].
Definition bad_key_body : list (string * pyval) :=
  [("cod", PInt 401); ("message", PStr "Invalid API key.")].
Definition weather_object_body : list (string * pyval) :=
  [("cod", PInt 200); ("name", PStr "Paris");
   ("weather", PDict [("description", PStr "clear sky")])].

(** The model is down for the intent prompt. *)
Definition env_llm_down : Collaborators :=
  stub (inl OtherError) (fun _ => None) (says "Hello.") no_upstream.

(** The weather service answers [status] with the JSON [body]. *)
Definition upstream_json (status : Z) (body : pyval) : exn + http_response :=
  inr {| status_code := status; json := inr body |}.

(** Collaborators of the weather tool alone. *)
Definition weather_env (upstream : exn + http_response) : Collaborators :=
  stub (inl OtherError) (fun _ => None) (inl OtherError) upstream.

Definition paris_main : list (string * pyval) :=
  [("temp", PInt 21); ("feels_like", PInt 20); ("humidity", PInt 40)].
Definition paris_body : list (string * pyval) :=
  [("cod", PInt 200); ("name", PStr "Paris"); ("main", PDict paris_main);
   ("weather", PList [PDict [("description", PStr "clear sky")]])].

(** [{"tool_name": "get_weather", "parameters": {"location": "Paris"}}]
    in a Markdown fence, and a weather service that knows Paris. *)
Definition paris_params : list (string * pyval) := [("location", PStr "Paris")].
Definition paris_text : string :=
  intent_text (quoted "get_weather") ("{" ++ quoted "location" ++ ": " ++ quoted "Paris" ++ "}").
Definition env_paris : Collaborators :=
  stub (says ("```json" ++ nl ++ paris_text ++ nl ++ "```"))
       (parses_as paris_text
          (PDict [("tool_name", PStr "get_weather"); ("parameters", PDict paris_params)]))
       (says "It is clear in Paris, 21 degrees.")
       (upstream_json 200 (PDict paris_body)).

(** [{"tool_name": "get_weather",
      "parameters": {"location": "Paris", "units": "metric"}}] *)
Definition extra_params : list (string * pyval) :=
  [("location", PStr "Paris"); ("units", PStr "metric")].
Definition env_extra_param : Collaborators :=
  intent_env (quoted "get_weather")
    ("{" ++ quoted "location" ++ ": " ++ quoted "Paris" ++ ", "
     ++ quoted "units" ++ ": " ++ quoted "metric" ++ "}")
    (PStr "get_weather") (PDict extra_params)
    "I could not look up the weather." (upstream_json 200 (PDict paris_body)).

(** [{"cod": 200, "name": "Paris", "main": null}] *)
Definition null_main_body : list (string * pyval) :=
  [("cod", PInt 200); ("name", PStr "Paris"); ("main", PNone)].

(** [{"cod": 200, "name": "Paris", "weather": [null]}] *)
Definition null_weather_body : list (string * pyval) :=
  [("cod", PInt 200); ("name", PStr "Paris"); ("weather", PList [PNone])].

(** ** Properties *)

Section Properties.

Variable env : Collaborators.

(** *** Texts *)

Lemma err_tool_failed_nonempty (v : pyval) : (err_tool_failed env v =? "") = false.
Proof. reflexivity. Qed.

Lemma err_missing_params_nonempty (v : pyval) (required : list string) :
  (err_missing_params env v required =? "") = false.
Proof. reflexivity. Qed.

Lemma err_tool_unavailable_nonempty (v : pyval) :
  (err_tool_unavailable env v =? "") = false.
Proof. reflexivity. Qed.

Lemma weather_sentence_nonempty (c d t f h : pyval) :
  (weather_sentence env c d t f h =? "") = false.
Proof. reflexivity. Qed.

Lemma err_api_nonempty (v : pyval) : (err_api env v =? "") = false.
Proof. reflexivity. Qed.

Lemma err_not_found_nonempty (loc : string) : (err_not_found loc =? "") = false.
Proof. reflexivity. Qed.

Lemma missing_params_prompt_not_intent (q q' : string) (name : pyval) (required : list string) :
  intent_prompt env q <> missing_params_prompt env q' name required.
Proof. unfold intent_prompt, missing_params_prompt. cbn [append nl]. discriminate. Qed.

Lemma missing_params_prompt_not_tool_result
    (q q' : string) (name name' params : pyval) (result : string) (required : list string) :
  tool_result_prompt env q name params result <> missing_params_prompt env q' name' required.
Proof. unfold tool_result_prompt, missing_params_prompt. cbn [append nl]. discriminate. Qed.

Lemma missing_params_prompt_not_no_tool (q q' : string) (name : pyval) (required : list string) :
  no_tool_prompt q <> missing_params_prompt env q' name required.
Proof. unfold no_tool_prompt, missing_params_prompt. cbn [append nl]. discriminate. Qed.

#[local] Opaque intent_prompt tool_result_prompt missing_params_prompt no_tool_prompt.
#[local] Opaque weather_sentence complete_url err_api err_not_found.
#[local] Opaque err_tool_failed err_missing_params err_tool_unavailable.

(** *** Strings *)

Lemma lstrip_whitespace_only (s : string) :
  whitespace_only s = true -> lstrip s = "".
Proof.
  unfold whitespace_only.
  induction s as [| c s IH]; simpl; [reflexivity |].
  intros H. apply andb_true_iff in H as [Hc Hs].
  rewrite Hc. auto.
Qed.

Lemma strip_whitespace_only (s : string) :
  whitespace_only s = true -> strip s = "".
Proof.
  intros H. unfold strip. now rewrite lstrip_whitespace_only.
Qed.

(** *** Computations that call no collaborator *)

Definition silent {A} (m : M A) : Prop := trace m = [].

Lemma silent_ret {A} (a : A) : silent (ret a).
Proof. reflexivity. Qed.

Lemma silent_raise {A} (e : exn) : silent (@raise A e).
Proof. reflexivity. Qed.

Lemma silent_lift {A} (r : exn + A) : silent (lift r).
Proof. reflexivity. Qed.

Lemma silent_bind {A B} (m : M A) (f : A -> M B) :
  silent m -> (forall a, silent (f a)) -> silent (bind m f).
Proof.
  unfold silent, trace, bind. destruct m as [t [e | a]]; simpl; intros -> Hf.
  - reflexivity.
  - specialize (Hf a). destruct (f a) as [t' r]. simpl in *. now subst.
Qed.

Lemma silent_if {A} (b : bool) (m1 m2 : M A) :
  silent m1 -> silent m2 -> silent (if b then m1 else m2).
Proof. now destruct b. Qed.

Lemma silent_py_get (v : pyval) (key : string) (default : pyval) :
  silent (py_get v key default).
Proof. now destruct v. Qed.

Lemma silent_py_index0 (v : pyval) : silent (py_index0 v).
Proof. destruct v as [| | | | [|] | [|] |]; reflexivity. Qed.

Lemma silent_py_contains (param : string) (v : pyval) : silent (py_contains param v).
Proof. now destruct v. Qed.

Lemma silent_raise_for_status (r : http_response) : silent (raise_for_status r).
Proof. unfold raise_for_status. apply silent_if; reflexivity. Qed.

Ltac silence :=
  repeat first
    [ apply silent_ret | apply silent_raise | apply silent_lift
    | apply silent_py_get | apply silent_py_index0 | apply silent_py_contains
    | apply silent_raise_for_status | apply silent_if
    | (apply silent_bind; [| intros ?]) ].

Lemma bind_ret_l {A B} (a : A) (f : A -> M B) : bind (ret a) f = f a.
Proof. unfold bind, ret. now destruct (f a). Qed.

Lemma trace_bind {A B} (m : M A) (f : A -> M B) :
  trace (bind m f) =
  (trace m ++ match outcome m with inr a => trace (f a) | inl _ => [] end)%list.
Proof.
  unfold trace, outcome, bind. destruct m as [t [e | a]]; simpl.
  - now rewrite app_nil_r.
  - now destruct (f a).
Qed.

Lemma trace_try_except {A} (m : M A) (h : exn -> M A) :
  trace (try_except m h) =
  (trace m ++ match outcome m with inl e => trace (h e) | inr _ => [] end)%list.
Proof.
  unfold trace, outcome, try_except. destruct m as [t [e | a]]; simpl.
  - now destruct (h e).
  - now rewrite app_nil_r.
Qed.

Lemma silent_all_present (required : list string) (parameters : pyval) :
  silent (all_present required parameters).
Proof.
  induction required as [| p ps IH]; simpl; [apply silent_ret |].
  apply silent_bind; [apply silent_py_contains |].
  intros [|]; [exact IH | apply silent_ret].
Qed.

(** *** The weather tool *)

Lemma silent_weather_handler (e : exn) : silent (weather_handler e).
Proof. destruct e; reflexivity. Qed.

Lemma fetch_weather_trace (loc : string) :
  trace (fetch_weather env loc) = [HttpGet (complete_url env loc) 10].
Proof.
  unfold fetch_weather. rewrite trace_bind.
  cbn [trace outcome emit fst snd app]. f_equal.
  match goal with |- trace ?m = [] => change (silent m) end.
  silence.
Qed.

Lemma get_weather_nonblank (loc : string) :
  strip loc <> "" ->
  get_weather env (PStr loc) = try_except (fetch_weather env loc) weather_handler.
Proof.
  intros H. unfold get_weather. simpl.
  destruct (String.eqb_spec loc "") as [-> | _]; [now elim H |].
  simpl. destruct (String.eqb_spec (strip loc) "") as [E | _]; [now elim H |].
  reflexivity.
Qed.

Lemma get_weather_trace (location : pyval) :
  trace (get_weather env location) = []
  \/ exists loc, trace (get_weather env location) = [HttpGet (complete_url env loc) 10].
Proof.
  unfold get_weather.
  destruct (truthy location); simpl; [| now left].
  destruct location; try (now left).
  destruct (strip s =? ""); [now left |].
  right. exists s.
  rewrite trace_try_except, fetch_weather_trace.
  destruct (outcome (fetch_weather env s)) as [e |]; [| reflexivity].
  now rewrite silent_weather_handler.
Qed.

Lemma fetch_weather_raises (loc : string) (e : exn) :
  requests_get env (complete_url env loc) 10 = inl e ->
  fetch_weather env loc = ([HttpGet (complete_url env loc) 10], inl e).
Proof.
  intros H. unfold fetch_weather. rewrite H. reflexivity.
Qed.

(** How the [weather] entry of a well-formed body gives the description:
    an absent or empty entry gives ["N/A"], a list gives the
    [description] of its first element, which is an object. *)
Inductive first_description : pyval -> pyval -> Prop :=
| no_weather (w : pyval) :
    truthy w = false -> first_description w (PStr "N/A")
| first_weather (wd : list (string * pyval)) (rest : list pyval) :
    first_description (PList (PDict wd :: rest)) (dict_get "description" wd (PStr "N/A")).

(** C7: the request of the weather tool carries the timeout 10; when the
    request times out the tool returns the timeout text, a failed
    connection gives the connection text, and the two texts differ. *)
Theorem weather_request_timeout (loc : string) :
  strip loc <> "" ->
  trace (get_weather env (PStr loc)) = [HttpGet (complete_url env loc) 10]
  /\ (requests_get env (complete_url env loc) 10 = inl Timeout ->
      outcome (get_weather env (PStr loc)) = inr err_timeout)
  /\ (requests_get env (complete_url env loc) 10 = inl RequestException ->
      outcome (get_weather env (PStr loc)) = inr err_connection)
  /\ err_timeout <> err_connection.
Proof.
  intros Hloc. rewrite (get_weather_nonblank loc Hloc). repeat split.
  - rewrite trace_try_except, fetch_weather_trace.
    destruct (outcome (fetch_weather env loc)) as [e |]; [| reflexivity].
    now rewrite silent_weather_handler.
  - intros H. now rewrite (fetch_weather_raises loc Timeout H).
  - intros H. now rewrite (fetch_weather_raises loc RequestException H).
  - discriminate.
Qed.

(** C6, as amended: for a location that is not blank, a response with a
    status below 500 whose JSON body is an object with [cod] equal to 200,
    whose [main] entry is absent or an object and whose [weather] entry is
    absent, empty or a list that starts with an object, the tool returns
    the sentence made of the name, the description, the temperature, the
    felt temperature and the humidity of the body, each as [str] formats
    it, with the defaults of the code for absent fields. *)
Theorem weather_success_sentence
    (loc : string) (resp : http_response) (d m : list (string * pyval))
    (description : pyval) :
  strip loc <> "" ->
  requests_get env (complete_url env loc) 10 = inr resp ->
  (status_code resp < 500)%Z ->
  json resp = inr (PDict d) ->
  py_eq_200 (dict_get "cod" d PNone) = true ->
  dict_get "main" d (PDict []) = PDict m ->
  first_description (dict_get "weather" d (PList [])) description ->
  outcome (get_weather env (PStr loc)) =
  inr (weather_sentence env (dict_get "name" d (PStr loc)) description
         (dict_get "temp" m (PStr "N/A")) (dict_get "feels_like" m (PStr "N/A"))
         (dict_get "humidity" m (PStr "N/A"))).
Proof.
  intros Hloc Hget Hstatus Hjson Hcod Hmain Hdesc.
  rewrite (get_weather_nonblank loc Hloc). unfold fetch_weather.
  rewrite Hget. apply Z.leb_gt in Hstatus.
  cbn [bind emit lift ret]. rewrite Hstatus, Hjson.
  cbn [bind lift ret py_get app]. rewrite Hcod.
  cbn [bind lift ret py_get app]. rewrite Hmain.
  cbn [bind lift ret py_get app].
  destruct Hdesc as [w Hw | wd rest].
  - rewrite Hw. reflexivity.
  - reflexivity.
Qed.

(** *** The stages of the orchestrator *)

(** What the intent stage can leave behind: the fallback of a handler, or
    the two entries of a parsed object. *)
Inductive intent_shape : intent -> Prop :=
| shape_fallback (parsed : option pyval) : intent_shape (fallback_intent parsed)
| shape_parsed (d : list (string * pyval)) :
    intent_shape {| tool_to_use := dict_get "tool_name" d PNone;
                    parameters := dict_get "parameters" d (PDict []);
                    parsed_intent := Some (PDict d) |}.

Lemma parse_intent_returns (q : string) :
  exists i, parse_intent env q = ([LlmCall (intent_prompt env q)], inr i) /\ intent_shape i.
Proof.
  unfold parse_intent, generate_text.
  destruct (generate_content env (intent_prompt env q)) as [e | [text |]];
    cbn [bind try_except emit lift ret raise app];
    try (eexists; split; [reflexivity | constructor]).
  destruct (json_loads env (clean_response_text text)) as [v |];
    cbn [bind try_except emit lift ret raise app];
    [| eexists; split; [reflexivity | constructor]].
  destruct v; cbn [bind try_except py_get ret raise app];
    eexists; (split; [reflexivity | constructor]).
Qed.

Lemma parse_intent_classified (q : string) (i : intent) :
  outcome (parse_intent env q) = inr i ->
  parse_intent env q = ([LlmCall (intent_prompt env q)], inr i) /\ intent_shape i.
Proof.
  destruct (parse_intent_returns q) as (i' & E & Hi). rewrite E. cbn.
  intros [= <-]. now split.
Qed.

(** Once a tool name was selected, [parsed_intent.get("tool_name", "N/A")]
    is that name. *)
Lemma intent_tool_name_selected (i : intent) :
  intent_shape i ->
  truthy (tool_to_use i) = true ->
  py_eq_str (tool_to_use i) "none" = false ->
  intent_tool_name (parsed_intent i) = ret (tool_to_use i).
Proof.
  intros [parsed | d]; cbn [tool_to_use parsed_intent fallback_intent].
  - discriminate.
  - unfold intent_tool_name, py_get, dict_get.
    destruct (dict_lookup "tool_name" d); [reflexivity | discriminate].
Qed.

Lemma generate_final_answer_returns (prompt : string) :
  exists a, generate_final_answer env prompt = ([LlmCall prompt], inr a).
Proof.
  unfold generate_final_answer, generate_text.
  destruct (generate_content env prompt) as [e | [text |]];
    cbn [bind try_except emit lift ret raise app]; eexists; reflexivity.
Qed.

(** The last two stages, when the prompt and the reported tool name
    evaluate without raising. *)
Lemma run_agent_steps (q : string) (i : intent) (t : list event) (x : execution)
    (prompt : string) (called : pyval) :
  parse_intent env q = ([LlmCall (intent_prompt env q)], inr i) ->
  execute_tool env (tool_to_use i) (parameters i) = (t, inr x) ->
  final_response_prompt env q i x = ret prompt ->
  (if result_truthy (tool_result x) then intent_tool_name (parsed_intent i)
   else ret (PStr "none")) = ret called ->
  exists r,
    run_agent env q = (LlmCall (intent_prompt env q) :: t ++ [LlmCall prompt], inr r)%list
    /\ debug_tool_called (debug r) = called
    /\ debug_tool_parameters (debug r) = parameters i
    /\ debug_tool_result (debug r) =
       (if result_truthy (tool_result x)
        then match tool_result x with Some s => s | None => "None" end
        else "N/A").
Proof.
  intros E1 E2 E3 E5. unfold run_agent.
  destruct (generate_final_answer_returns prompt) as (a & E4).
  rewrite E1. cbn [bind]. rewrite E2. cbn [bind]. rewrite E3. cbn [bind ret].
  rewrite E4. cbn [bind]. rewrite E5. cbn [bind ret app].
  eexists. split; [reflexivity | cbn; repeat split].
Qed.

Lemma run_agent_raises (q : string) (i : intent) (t : list event) (e : exn) :
  parse_intent env q = ([LlmCall (intent_prompt env q)], inr i) ->
  execute_tool env (tool_to_use i) (parameters i) = (t, inl e) ->
  run_agent env q = (LlmCall (intent_prompt env q) :: t, inl e).
Proof.
  intros E1 E2. unfold run_agent. rewrite E1. cbn [bind]. now rewrite E2.
Qed.

(** The only registered tool. *)
Lemma registered_tool (name : string) (f : tool_function) :
  TOOLS_lookup name (TOOLS env) = Some f ->
  name = "get_weather" /\ f = get_weather_function env.
Proof.
  cbn [TOOLS TOOLS_lookup].
  destruct (String.eqb_spec "get_weather" name) as [<- | _]; [| discriminate].
  intros [= <-]. now split.
Qed.

Lemma unregistered_tool (name : string) :
  TOOLS_lookup name (TOOLS env) = None -> (name =? "get_weather") = false.
Proof.
  cbn [TOOLS TOOLS_lookup]. rewrite String.eqb_sym.
  now destruct (name =? "get_weather").
Qed.

Lemma required_params_get_weather :
  required_params_of (get_weather_function env) = ["location"].
Proof. reflexivity. Qed.

Lemma execute_tool_no_tool (tool params : pyval) :
  truthy tool = false \/ py_eq_str tool "none" = true ->
  execute_tool env tool params =
  ret {| tool_after := tool; tool_result := None; required_params := None |}.
Proof.
  unfold execute_tool. intros [H | H].
  - rewrite H. reflexivity.
  - destruct tool; try discriminate. cbn in H. apply String.eqb_eq in H. subst s.
    reflexivity.
Qed.

Lemma execute_tool_unhashable (tool params : pyval) :
  truthy tool = true -> hashable tool = false ->
  execute_tool env tool params = raise TypeError.
Proof.
  intros Ht Hh. unfold execute_tool, in_TOOLS. rewrite Ht, Hh. reflexivity.
Qed.

Lemma execute_tool_unavailable (name : string) (params : pyval) :
  name <> "" -> name <> "none" -> TOOLS_lookup name (TOOLS env) = None ->
  execute_tool env (PStr name) params =
  ret {| tool_after := PStr "none";
         tool_result := Some (err_tool_unavailable env (PStr name));
         required_params := None |}.
Proof.
  intros Hne Hnone Hreg. apply unregistered_tool in Hreg.
  apply String.eqb_neq in Hne, Hnone.
  unfold execute_tool, in_TOOLS. cbn [truthy hashable py_eq_str TOOLS_keys TOOLS map fst existsb].
  rewrite Hne, Hreg, Hnone. reflexivity.
Qed.

(** The registered branch of line 183, up to the test of line 188. *)
Lemma execute_tool_registered (params : pyval) :
  execute_tool env (PStr "get_weather") params =
  (ok <- all_present ["location"] params ;;
   if ok then
     result <- try_except
                 (emit (ToolCall "get_weather" params) ;;;
                  call_with_kwargs (get_weather_function env) params)
                 (fun _ => ret (err_tool_failed env (PStr "get_weather"))) ;;
     ret {| tool_after := PStr "get_weather"; tool_result := Some result;
            required_params := Some ["location"] |}
   else
     ret {| tool_after := PStr "none_missing_params";
            tool_result := Some (err_missing_params env (PStr "get_weather") ["location"]);
            required_params := Some ["location"] |}).
Proof.
  unfold execute_tool.
  change (truthy (PStr "get_weather")) with true. cbv beta iota.
  change (in_TOOLS env (PStr "get_weather")) with (@ret bool true).
  rewrite bind_ret_l. cbv beta iota.
  change (TOOLS_getitem env (PStr "get_weather")) with (ret (get_weather_function env)).
  rewrite bind_ret_l. reflexivity.
Qed.

Lemma execute_tool_missing (params : pyval) :
  all_present ["location"] params = ret false ->
  execute_tool env (PStr "get_weather") params =
  ret {| tool_after := PStr "none_missing_params";
         tool_result := Some (err_missing_params env (PStr "get_weather") ["location"]);
         required_params := Some ["location"] |}.
Proof.
  intros H. rewrite execute_tool_registered, H. now rewrite bind_ret_l.
Qed.

Lemma execute_tool_validation_raises (params : pyval) (e : exn) :
  all_present ["location"] params = raise e ->
  execute_tool env (PStr "get_weather") params = raise e.
Proof.
  intros H. rewrite execute_tool_registered, H. reflexivity.
Qed.

Lemma execute_tool_invokes (params : pyval) :
  all_present ["location"] params = ret true ->
  execute_tool env (PStr "get_weather") params =
  (result <- try_except
               (emit (ToolCall "get_weather" params) ;;;
                call_with_kwargs (get_weather_function env) params)
               (fun _ => ret (err_tool_failed env (PStr "get_weather"))) ;;
   ret {| tool_after := PStr "get_weather"; tool_result := Some result;
          required_params := Some ["location"] |}).
Proof.
  intros H. rewrite execute_tool_registered, H. now rewrite bind_ret_l.
Qed.

Lemma execute_tool_unselected (tool params : pyval) :
  truthy tool = true -> hashable tool = true ->
  py_eq_str tool "none" = false -> py_eq_str tool "get_weather" = false ->
  execute_tool env tool params =
  ret {| tool_after := PStr "none";
         tool_result := Some (err_tool_unavailable env tool);
         required_params := None |}.
Proof.
  intros Ht Hh Hnone Hreg. unfold execute_tool, in_TOOLS. rewrite Ht, Hh, Hnone.
  assert (E : match tool with
              | PStr s => existsb (String.eqb s) (TOOLS_keys env)
              | _ => false
              end = false).
  { destruct tool; try reflexivity. cbn in Hreg |- *. now rewrite Hreg. }
  rewrite E. now rewrite bind_ret_l.
Qed.

(** The prompt of lines 209-234 and the reported tool name, for what the
    tool stage leaves behind: they do not raise. *)
Lemma final_stage_returns (q : string) (i : intent) (x : execution) :
  intent_shape i ->
  (result_truthy (tool_result x) = true ->
   truthy (tool_to_use i) = true /\ py_eq_str (tool_to_use i) "none" = false) ->
  (result_truthy (tool_result x) = false ->
   py_eq_str (tool_after x) "none_missing_params" = false) ->
  final_response_prompt env q i x =
    ret (if result_truthy (tool_result x)
         then tool_result_prompt env q (tool_to_use i) (parameters i)
                (match tool_result x with Some r => r | None => "None" end)
         else no_tool_prompt q)
  /\ (if result_truthy (tool_result x) then intent_tool_name (parsed_intent i)
      else ret (PStr "none"))
     = ret (if result_truthy (tool_result x) then tool_to_use i else PStr "none").
Proof.
  intros Hi Hyes Hno. unfold final_response_prompt.
  destruct (result_truthy (tool_result x)).
  - destruct Hyes as [Ht Hn]; [reflexivity |].
    rewrite (intent_tool_name_selected i Hi Ht Hn). now rewrite bind_ret_l.
  - now rewrite Hno.
Qed.

(** The call of line 192 under its handler: one [ToolCall], at most one
    request of the tool behind it, and a result in every case. *)
Lemma call_with_kwargs_trace (params : pyval) :
  trace (call_with_kwargs (get_weather_function env) params) = []
  \/ exists loc,
       trace (call_with_kwargs (get_weather_function env) params)
       = [HttpGet (complete_url env loc) 10].
Proof.
  unfold call_with_kwargs. destruct params; try (now left).
  destruct (forallb _ _); [| now left].
  destruct (bind_arguments _ d) as [[| v [| ? ?]] |]; try (now left).
  apply get_weather_trace.
Qed.

Lemma tool_call_returns (params : pyval) :
  exists t r,
    try_except
      (emit (ToolCall "get_weather" params) ;;;
       call_with_kwargs (get_weather_function env) params)
      (fun _ => ret (err_tool_failed env (PStr "get_weather")))
    = (ToolCall "get_weather" params :: t, inr r)
    /\ filter is_tool_call t = []
    /\ (call_with_kwargs (get_weather_function env) params = raise TypeError ->
        t = [] /\ r = err_tool_failed env (PStr "get_weather")).
Proof.
  pose proof (call_with_kwargs_trace params) as Ht.
  destruct (call_with_kwargs (get_weather_function env) params) as [t [e | r]];
    cbn [trace outcome fst snd] in Ht.
  - exists t, (err_tool_failed env (PStr "get_weather")).
    cbn [bind emit try_except ret app]. rewrite app_nil_r.
    split; [reflexivity | split].
    + destruct Ht as [-> | [loc ->]]; reflexivity.
    + now intros [= -> _].
  - exists t, r. cbn [bind emit try_except ret app].
    split; [reflexivity | split].
    + destruct Ht as [-> | [loc ->]]; reflexivity.
    + discriminate.
Qed.

(** The prompt that the last stage sends. *)
Definition chosen_prompt (q : string) (i : intent) (x : execution) : string :=
  if result_truthy (tool_result x)
  then tool_result_prompt env q (tool_to_use i) (parameters i)
         (match tool_result x with Some r => r | None => "None" end)
  else no_tool_prompt q.

Lemma run_agent_after_execute (q : string) (i : intent) (t : list event) (x : execution) :
  parse_intent env q = ([LlmCall (intent_prompt env q)], inr i) ->
  intent_shape i ->
  execute_tool env (tool_to_use i) (parameters i) = (t, inr x) ->
  (result_truthy (tool_result x) = true ->
   truthy (tool_to_use i) = true /\ py_eq_str (tool_to_use i) "none" = false) ->
  (result_truthy (tool_result x) = false ->
   py_eq_str (tool_after x) "none_missing_params" = false) ->
  exists r,
    run_agent env q
    = (LlmCall (intent_prompt env q) :: t ++ [LlmCall (chosen_prompt q i x)], inr r)%list
    /\ debug_tool_parameters (debug r) = parameters i
    /\ debug_tool_result (debug r) =
       (if result_truthy (tool_result x)
        then match tool_result x with Some s => s | None => "None" end
        else "N/A").
Proof.
  intros E1 Hi E2 Hyes Hno.
  destruct (final_stage_returns q i x Hi Hyes Hno) as [E3 E5].
  destruct (run_agent_steps q i t x _ _ E1 E2 E3 E5) as (r & Er & _ & Hp & Hr).
  exists r. now repeat split.
Qed.

(** The run of a query classified to the registered tool with its
    required parameter present: lines 189-195 are reached. *)
Lemma run_agent_invokes (q : string) (i : intent) :
  outcome (parse_intent env q) = inr i ->
  tool_to_use i = PStr "get_weather" ->
  all_present ["location"] (parameters i) = ret true ->
  exists t result r,
    run_agent env q
    = (LlmCall (intent_prompt env q) :: ToolCall "get_weather" (parameters i) :: t
       ++ [LlmCall (if negb (result =? "")
                    then tool_result_prompt env q (PStr "get_weather") (parameters i) result
                    else no_tool_prompt q)], inr r)%list
    /\ filter is_tool_call t = []
    /\ (call_with_kwargs (get_weather_function env) (parameters i) = raise TypeError ->
        t = [] /\ result = err_tool_failed env (PStr "get_weather"))
    /\ debug_tool_result (debug r) = (if negb (result =? "") then result else "N/A").
Proof.
  intros Hparse Htool Hall.
  destruct (parse_intent_classified q i Hparse) as [E1 Hi].
  destruct (tool_call_returns (parameters i)) as (t & result & Ecall & Hfilter & Hraise).
  pose proof (execute_tool_invokes (parameters i) Hall) as E2.
  rewrite Ecall in E2. cbn [bind ret] in E2. rewrite app_nil_r in E2.
  rewrite <- Htool in E2 at 1.
  destruct (run_agent_after_execute q i _ _ E1 Hi E2) as (r & Er & _ & Hr).
  - intros _. now rewrite Htool.
  - intros _. reflexivity.
  - exists t, result, r. unfold chosen_prompt in Er.
    cbn [tool_result result_truthy app] in Er, Hr. rewrite Htool in Er.
    split; [exact Er | split; [exact Hfilter | split; [exact Hraise | exact Hr]]].
Qed.

Lemma all_present_dict (d : list (string * pyval)) :
  all_present ["location"] (PDict d) = ret (has_key "location" d).
Proof.
  cbn [all_present py_contains]. rewrite bind_ret_l.
  now destruct (has_key "location" d).
Qed.


(** *** The tool is invoked *)


(** *** No tool is invoked *)

(** C1, as amended: for a query classified to a registered tool whose
    parsed parameters mapping lacks a required parameter name, no tool is
    invoked and no request is sent, the run returns, and the tool result
    is the error text that asks for more information and names the tool
    and its required parameters. *)
Theorem missing_parameters_not_invoked
    (q : string) (i : intent) (name : string) (f : tool_function)
    (d : list (string * pyval)) :
  outcome (parse_intent env q) = inr i ->
  tool_to_use i = PStr name ->
  TOOLS_lookup name (TOOLS env) = Some f ->
  parameters i = PDict d ->
  forallb (fun param => has_key param d) (required_params_of f) = false ->
  filter is_tool_call (trace (run_agent env q)) = []
  /\ filter is_http_get (trace (run_agent env q)) = []
  /\ exists r, outcome (run_agent env q) = inr r
               /\ debug_tool_result (debug r)
                  = err_missing_params env (PStr name) (required_params_of f).
Proof.
  intros Hparse Htool Hreg Hparams Hall.
  destruct (registered_tool name f Hreg) as [-> ->].
  rewrite required_params_get_weather in *. cbn [forallb] in Hall.
  rewrite andb_true_r in Hall.
  destruct (parse_intent_classified q i Hparse) as [E1 Hi].
  pose proof (execute_tool_missing (PDict d)) as E2.
  rewrite all_present_dict, Hall in E2. specialize (E2 eq_refl).
  rewrite <- Hparams, <- Htool in E2 at 1.
  destruct (run_agent_after_execute q i _ _ E1 Hi E2) as (r & Er & _ & Hr).
  - intros _. now rewrite Htool.
  - cbn [tool_result result_truthy]. now rewrite err_missing_params_nonempty.
  - cbn [tool_result result_truthy] in Hr. rewrite err_missing_params_nonempty in Hr.
    rewrite Er. repeat split. exists r. now split.
Qed.


(** *** The run returns, or the validation raises *)

(** The values on which [param in v] is defined. *)
Definition is_container (v : pyval) : bool :=
  match v with
  | PDict _ | PList _ | PStr _ => true
  | _ => false
  end.

(** The classifications on which lines 183-188 raise: a tool name that
    cannot be hashed, or the registered tool with parameters that are no
    container. *)
Definition validation_raises (i : intent) : bool :=
  truthy (tool_to_use i)
  && (negb (hashable (tool_to_use i))
      || (py_eq_str (tool_to_use i) "get_weather" && negb (is_container (parameters i)))).

Lemma all_present_container (params : pyval) :
  is_container params = true -> exists b, all_present ["location"] params = ret b.
Proof.
  intros H. cbn [all_present].
  destruct params; try discriminate; cbn [py_contains]; rewrite bind_ret_l;
    match goal with |- context [if ?b then _ else _] => exists b; now destruct b end.
Qed.

Lemma all_present_not_container (params : pyval) :
  is_container params = false -> all_present ["location"] params = raise TypeError.
Proof.
  intros H. destruct params; try discriminate; reflexivity.
Qed.

Lemma py_eq_str_true (v : pyval) (s : string) : py_eq_str v s = true -> v = PStr s.
Proof.
  destruct v; try discriminate. cbn. intros H. apply String.eqb_eq in H. now subst.
Qed.

Lemma run_agent_outcome (q : string) (i : intent) :
  outcome (parse_intent env q) = inr i ->
  (validation_raises i = true /\ outcome (run_agent env q) = inl TypeError)
  \/ (validation_raises i = false /\ exists r, outcome (run_agent env q) = inr r).
Proof.
  intros Hparse. destruct (parse_intent_classified q i Hparse) as [E1 Hi].
  unfold validation_raises.
  destruct (truthy (tool_to_use i)) eqn:Ht; cbn [andb].
  2: { right. split; [reflexivity |].
       pose proof (execute_tool_no_tool (tool_to_use i) (parameters i) (or_introl Ht)) as E2.
       destruct (run_agent_after_execute q i _ _ E1 Hi E2) as (r & Er & _).
       - discriminate.
       - intros _. cbn [tool_after]. destruct (tool_to_use i); try reflexivity.
         cbn in Ht |- *. apply negb_false_iff, String.eqb_eq in Ht. now subst.
       - exists r. now rewrite Er. }
  destruct (hashable (tool_to_use i)) eqn:Hh; cbn [negb orb].
  2: { left. split; [reflexivity |].
       now rewrite (run_agent_raises q i [] TypeError E1
                      (execute_tool_unhashable _ _ Ht Hh)). }
  destruct (py_eq_str (tool_to_use i) "get_weather") eqn:Hg; cbn [andb].
  - apply py_eq_str_true in Hg.
    destruct (is_container (parameters i)) eqn:Hc; cbn [negb].
    + right. split; [reflexivity |].
      destruct (all_present_container _ Hc) as ([|] & Hall).
      * destruct (run_agent_invokes q i Hparse Hg Hall) as (t & result & r & E & _).
        exists r. now rewrite E.
      * pose proof (execute_tool_missing _ Hall) as E2. rewrite <- Hg in E2 at 1.
        destruct (run_agent_after_execute q i _ _ E1 Hi E2) as (r & Er & _).
        -- intros _. now rewrite Hg.
        -- cbn [tool_result result_truthy]. now rewrite err_missing_params_nonempty.
        -- exists r. now rewrite Er.
    + left. split; [reflexivity |].
      pose proof (execute_tool_validation_raises _ TypeError
                    (all_present_not_container _ Hc)) as E2.
      rewrite <- Hg in E2. now rewrite (run_agent_raises q i [] TypeError E1 E2).
  - right. split; [reflexivity |].
    destruct (py_eq_str (tool_to_use i) "none") eqn:Hn.
    + pose proof (execute_tool_no_tool (tool_to_use i) (parameters i) (or_intror Hn)) as E2.
      destruct (run_agent_after_execute q i _ _ E1 Hi E2) as (r & Er & _).
      * discriminate.
      * intros _. cbn [tool_after]. apply py_eq_str_true in Hn. now rewrite Hn.
      * exists r. now rewrite Er.
    + pose proof (execute_tool_unselected _ (parameters i) Ht Hh Hn Hg) as E2.
      destruct (run_agent_after_execute q i _ _ E1 Hi E2) as (r & Er & _).
      * intros _. now split.
      * cbn [tool_result result_truthy]. now rewrite err_tool_unavailable_nonempty.
      * exists r. now rewrite Er.
Qed.

(** C2, as amended: [run_agent] returns a result for every query and every
    behaviour of the collaborators in which the parsed tool name can be
    hashed and, when it names the registered tool, the parsed parameters
    are an object, an array or a string; on the other classifications the
    validation of lines 183-188 raises [TypeError] past [run_agent], and
    the endpoint answers a query that is not blank with status 500. *)
Theorem run_agent_returns_unless_validation_raises (q : string) (i : intent) :
  outcome (parse_intent env q) = inr i ->
  (validation_raises i = false -> exists r, outcome (run_agent env q) = inr r)
  /\ (validation_raises i = true ->
      outcome (run_agent env q) = inl TypeError
      /\ (strip q <> "" -> reply_status (snd (handle_agent_request env q)) = 500%Z)).
Proof.
  intros Hparse.
  destruct (run_agent_outcome q i Hparse) as [[Hv Ho] | [Hv Ho]]; rewrite Hv.
  - split; [discriminate |]. intros _. split; [exact Ho |].
    intros Hq. unfold handle_agent_request.
    destruct (String.eqb_spec q "") as [-> | _]; [now elim Hq |].
    destruct (String.eqb_spec (strip q) "") as [E | _]; [now elim Hq |].
    cbn [orb]. unfold outcome in Ho. destruct (run_agent env q) as [t o].
    cbn [snd] in Ho. now rewrite Ho.
  - split; [intros _; exact Ho | discriminate].
Qed.

(** *** Classification failures *)

(** The failures after which lines 173-180 run: the call of the model
    raises or has no text, the cleaned text is no JSON, or its value is no
    object.  The index is what [parsed_intent] is bound to, if it is. *)
Inductive degrades_to_none (q : string) : option pyval -> Prop :=
| llm_raises (e : exn) :
    generate_content env (intent_prompt env q) = inl e ->
    degrades_to_none q None
| llm_no_text :
    generate_content env (intent_prompt env q) = inr None ->
    degrades_to_none q None
| text_not_json (text : string) :
    generate_content env (intent_prompt env q) = inr (Some text) ->
    json_loads env (clean_response_text text) = None ->
    degrades_to_none q None
| json_not_object (text : string) (v : pyval) :
    generate_content env (intent_prompt env q) = inr (Some text) ->
    json_loads env (clean_response_text text) = Some v ->
    (forall d, v <> PDict d) ->
    degrades_to_none q (Some v).

(** A run that calls the model twice and nothing else, the second time
    with the conversational prompt, and returns a result that reports no
    tool and the parameters [params]. *)
Definition answers_without_tool (q : string) (params : pyval) : Prop :=
  trace (run_agent env q) = [LlmCall (intent_prompt env q); LlmCall (no_tool_prompt q)]
  /\ exists r, outcome (run_agent env q) = inr r
               /\ debug_tool_called (debug r) = PStr "none"
               /\ debug_tool_result (debug r) = "N/A"
               /\ debug_tool_parameters (debug r) = params.

Lemma degrades_to_none_intent (q : string) (parsed : option pyval) :
  degrades_to_none q parsed ->
  parse_intent env q = ([LlmCall (intent_prompt env q)], inr (fallback_intent parsed)).
Proof.
  unfold parse_intent, generate_text.
  intros [e H | H | text H1 H2 | text v H1 H2 H3]; rewrite ?H, ?H1;
    cbn [bind try_except emit lift ret raise app]; rewrite ?H2;
    cbn [bind try_except emit lift ret raise app]; try reflexivity.
  destruct v; try (now elim (H3 d)); reflexivity.
Qed.

Lemma run_without_tool (q : string) (i : intent) :
  parse_intent env q = ([LlmCall (intent_prompt env q)], inr i) ->
  intent_shape i ->
  truthy (tool_to_use i) = false \/ tool_to_use i = PStr "none" ->
  answers_without_tool q (parameters i).
Proof.
  intros E1 Hi Hnone.
  assert (Hn : truthy (tool_to_use i) = false \/ py_eq_str (tool_to_use i) "none" = true).
  { destruct Hnone as [H | H]; [now left | right; now rewrite H]. }
  pose proof (execute_tool_no_tool (tool_to_use i) (parameters i) Hn) as E2.
  destruct (final_stage_returns q i
              {| tool_after := tool_to_use i; tool_result := None;
                 required_params := None |} Hi) as [E3 E5].
  - discriminate.
  - intros _. cbn [tool_after]. destruct Hnone as [H | ->]; [| reflexivity].
    destruct (tool_to_use i); try reflexivity.
    cbn in H |- *. apply negb_false_iff, String.eqb_eq in H. now subst.
  - destruct (run_agent_steps q i [] _ _ _ E1 E2 E3 E5) as (r & Er & Hc & Hp & Hr).
    unfold answers_without_tool. rewrite Er. split; [reflexivity |].
    exists r. cbn [tool_result result_truthy] in Hc, Hr. now repeat split.
Qed.

(** C3, as amended: when the call of the model for the intent raises or
    has no text, or the cleaned text is no JSON or no JSON object,
    classification falls back to the tool name "none" with empty
    parameters; when the parsed object has no [tool_name] entry, the tool
    name is [None] and the parameters are those of the object, the empty
    object by default.  In each of these cases the run makes the two calls
    of the model and no other call, the second with the conversational
    prompt, and returns a result that reports no tool.  When the parsed
    object only lacks the [parameters] entry, the tool name is kept and
    the parameters are the empty object. *)
Theorem classification_failure_answers_without_tool (q : string) :
  (forall parsed,
     degrades_to_none q parsed ->
     outcome (parse_intent env q) = inr (fallback_intent parsed)
     /\ tool_to_use (fallback_intent parsed) = PStr "none"
     /\ parameters (fallback_intent parsed) = PDict []
     /\ answers_without_tool q (PDict []))
  /\ (forall text d,
        generate_content env (intent_prompt env q) = inr (Some text) ->
        json_loads env (clean_response_text text) = Some (PDict d) ->
        dict_lookup "tool_name" d = None ->
        outcome (parse_intent env q)
        = inr {| tool_to_use := PNone;
                 parameters := dict_get "parameters" d (PDict []);
                 parsed_intent := Some (PDict d) |}
        /\ answers_without_tool q (dict_get "parameters" d (PDict [])))
  /\ (forall text d,
        generate_content env (intent_prompt env q) = inr (Some text) ->
        json_loads env (clean_response_text text) = Some (PDict d) ->
        dict_lookup "parameters" d = None ->
        outcome (parse_intent env q)
        = inr {| tool_to_use := dict_get "tool_name" d PNone;
                 parameters := PDict [];
                 parsed_intent := Some (PDict d) |}).
Proof.
  assert (Hobject : forall text d,
    generate_content env (intent_prompt env q) = inr (Some text) ->
    json_loads env (clean_response_text text) = Some (PDict d) ->
    parse_intent env q
    = ([LlmCall (intent_prompt env q)],
       inr {| tool_to_use := dict_get "tool_name" d PNone;
              parameters := dict_get "parameters" d (PDict []);
              parsed_intent := Some (PDict d) |})).
  { intros text d Hllm Hloads. unfold parse_intent, generate_text. rewrite Hllm.
    cbn [bind try_except emit lift ret raise app]. rewrite Hloads. reflexivity. }
  split; [| split].
  - intros parsed Hfail. pose proof (degrades_to_none_intent q parsed Hfail) as E1.
    rewrite E1. repeat (split; [reflexivity |]).
    exact (run_without_tool q _ E1 (shape_fallback parsed) (or_intror eq_refl)).
  - intros text d Hllm Hloads Hname. pose proof (Hobject text d Hllm Hloads) as E1.
    assert (Ht : dict_get "tool_name" d PNone = PNone)
      by (unfold dict_get; now rewrite Hname).
    rewrite Ht in E1. rewrite E1. split; [reflexivity |].
    apply (run_without_tool q _ E1); [| now left].
    rewrite <- Ht. apply shape_parsed.
  - intros text d Hllm Hloads Hparams. rewrite (Hobject text d Hllm Hloads).
    unfold dict_get at 2. now rewrite Hparams.
Qed.

(** *** The endpoint *)

(** C8: for a query that is empty or made of whitespace only, the endpoint
    answers status 400 and calls neither the model nor a tool. *)
Theorem blank_query_rejected (q : string) :
  whitespace_only q = true ->
  reply_status (snd (handle_agent_request env q)) = 400%Z
  /\ fst (handle_agent_request env q) = [].
Proof.
  intros H. unfold handle_agent_request.
  rewrite (strip_whitespace_only q H). cbn [String.eqb]. rewrite orb_true_r.
  now split.
Qed.

(** *** The branches of the weather tool *)

(** Computations that, when they return, return a text that is not empty. *)
Definition texty (m : M string) : Prop :=
  forall r, outcome m = inr r -> (r =? "") = false.

Lemma texty_ret (s : string) : (s =? "") = false -> texty (ret s).
Proof. intros H r [= <-]. exact H. Qed.

Lemma texty_raise (e : exn) : texty (raise e).
Proof. intros r H. discriminate H. Qed.

Lemma texty_bind {A} (m : M A) (f : A -> M string) :
  (forall a, texty (f a)) -> texty (bind m f).
Proof.
  intros Hf r. unfold bind, outcome. destruct m as [t [e | a]]; cbn [snd].
  - discriminate.
  - specialize (Hf a r). unfold outcome in Hf. now destruct (f a).
Qed.

Lemma texty_if (b : bool) (m1 m2 : M string) :
  texty m1 -> texty m2 -> texty (if b then m1 else m2).
Proof. now destruct b. Qed.

Lemma texty_try_except (m : M string) (h : exn -> M string) :
  texty m -> (forall e, texty (h e)) -> texty (try_except m h).
Proof.
  intros Hm Hh r. unfold try_except, outcome. specialize (Hm r). unfold outcome in Hm.
  destruct m as [t [e | a]]; cbn [snd] in *.
  - specialize (Hh e r). unfold outcome in Hh. now destruct (h e).
  - exact Hm.
Qed.

Lemma texty_weather_handler (e : exn) : texty (weather_handler e).
Proof. destruct e; now apply texty_ret. Qed.

Lemma texty_fetch_weather (loc : string) : texty (fetch_weather env loc).
Proof.
  unfold fetch_weather.
  repeat first
    [ apply texty_bind; intros ?
    | apply texty_if
    | apply texty_ret;
      first [ apply weather_sentence_nonempty | apply err_api_nonempty
            | apply err_not_found_nonempty ] ].
Qed.

Lemma texty_get_weather (location : pyval) : texty (get_weather env location).
Proof.
  unfold get_weather. apply texty_if; [now apply texty_ret |].
  destruct location; try apply texty_raise.
  apply texty_if; [now apply texty_ret |].
  apply texty_try_except; [apply texty_fetch_weather | apply texty_weather_handler].
Qed.

(** X2: [get_weather] sends at most one request, the one for the URL of
    its location with the timeout 10, and makes no other call. *)
Theorem get_weather_at_most_one_request (location : pyval) :
  trace (get_weather env location) = []
  \/ exists loc, location = PStr loc
                 /\ trace (get_weather env location) = [HttpGet (complete_url env loc) 10].
Proof.
  unfold get_weather.
  destruct (truthy location); cbn [negb]; [| now left].
  destruct location; try (now left).
  destruct (strip s =? ""); [now left |].
  right. exists s. split; [reflexivity |].
  rewrite trace_try_except, fetch_weather_trace.
  destruct (outcome (fetch_weather env s)) as [e |]; [| reflexivity].
  now rewrite silent_weather_handler.
Qed.


(** A location that is true as a condition and is not a string (a
    number, [true], a list or an object that is not empty) makes
    [get_weather] raise [AttributeError] past its boundary, before any
    request. *)
Lemma get_weather_non_string_raises (location : pyval) :
  truthy location = true ->
  (forall s, location <> PStr s) ->
  get_weather env location = ([], inl AttributeError).
Proof.
  intros Ht Hs. unfold get_weather. rewrite Ht. cbn [negb].
  destruct location; try reflexivity. now elim (Hs s).
Qed.

(** X3: when the body of a response with a status below 500 is an object
    whose [cod] is the string "404", the result is the text that the city
    of the location was not found. *)
Theorem get_weather_city_not_found
    (loc : string) (resp : http_response) (d : list (string * pyval)) :
  strip loc <> "" ->
  requests_get env (complete_url env loc) 10 = inr resp ->
  (status_code resp < 500)%Z ->
  json resp = inr (PDict d) ->
  dict_lookup "cod" d = Some (PStr "404") ->
  outcome (get_weather env (PStr loc)) = inr (err_not_found loc).
Proof.
  intros Hloc Hget Hstatus Hjson Hcod.
  rewrite (get_weather_nonblank loc Hloc). unfold fetch_weather.
  rewrite Hget. apply Z.leb_gt in Hstatus.
  cbn [bind emit lift ret]. rewrite Hstatus, Hjson.
  assert (Hc : dict_get "cod" d PNone = PStr "404")
    by (unfold dict_get; now rewrite Hcod).
  cbn [bind lift ret py_get app]. rewrite !Hc.
  change (py_eq_200 (PStr "404")) with false.
  change (py_eq_str (PStr "404") "404") with true.
  reflexivity.
Qed.

(** X4: when the body of a response with a status below 500 is an object
    whose [cod] is neither 200 nor the string "404" (the number 404, for
    one), the result reports the [message] of the body, or "Unknown API
    error" when the body has none. *)
Theorem get_weather_api_error
    (loc : string) (resp : http_response) (d : list (string * pyval)) :
  strip loc <> "" ->
  requests_get env (complete_url env loc) 10 = inr resp ->
  (status_code resp < 500)%Z ->
  json resp = inr (PDict d) ->
  py_eq_200 (dict_get "cod" d PNone) = false ->
  py_eq_str (dict_get "cod" d PNone) "404" = false ->
  outcome (get_weather env (PStr loc))
  = inr (err_api env (dict_get "message" d (PStr "Unknown API error"))).
Proof.
  intros Hloc Hget Hstatus Hjson H200 H404.
  rewrite (get_weather_nonblank loc Hloc). unfold fetch_weather.
  rewrite Hget. apply Z.leb_gt in Hstatus.
  cbn [bind emit lift ret]. rewrite Hstatus, Hjson.
  cbn [bind lift ret py_get app]. rewrite H200, H404.
  reflexivity.
Qed.

(** X5: a response with a status from 500 to 599 gives the text of a
    failed connection; its body is not read. *)
Theorem get_weather_server_error (loc : string) (resp : http_response) :
  strip loc <> "" ->
  requests_get env (complete_url env loc) 10 = inr resp ->
  (500 <= status_code resp < 600)%Z ->
  outcome (get_weather env (PStr loc)) = inr err_connection.
Proof.
  intros Hloc Hget [Hlo Hhi].
  rewrite (get_weather_nonblank loc Hloc). unfold fetch_weather, raise_for_status.
  rewrite Hget.
  assert (H1 : (500 <=? status_code resp)%Z = true) by now apply Z.leb_le.
  assert (H2 : (400 <=? status_code resp)%Z = true) by (apply Z.leb_le; lia).
  assert (H3 : (status_code resp <? 600)%Z = true) by now apply Z.ltb_lt.
  cbn [bind emit lift ret]. rewrite H1, H2, H3. reflexivity.
Qed.

(** X6: when the body of a response with a status below 500 is JSON that
    is not an object (a list, a string, a number, [null]), the result is
    the text of an unexpected error. *)
Theorem get_weather_body_not_object (loc : string) (resp : http_response) (v : pyval) :
  strip loc <> "" ->
  requests_get env (complete_url env loc) 10 = inr resp ->
  (status_code resp < 500)%Z ->
  json resp = inr v ->
  (forall d, v <> PDict d) ->
  outcome (get_weather env (PStr loc)) = inr err_unexpected.
Proof.
  intros Hloc Hget Hstatus Hjson Hv.
  rewrite (get_weather_nonblank loc Hloc). unfold fetch_weather.
  rewrite Hget. apply Z.leb_gt in Hstatus.
  cbn [bind emit lift ret]. rewrite Hstatus, Hjson.
  destruct v; try reflexivity. now elim (Hv d).
Qed.

(** X8: when the body has [cod] equal to 200 and a [weather] entry that
    is an object that is not empty, the lookup of its first element
    raises [KeyError] and the result is the text of an unexpected
    format. *)
Theorem get_weather_weather_object
    (loc : string) (resp : http_response) (d m : list (string * pyval))
    (kv : string * pyval) (w : list (string * pyval)) :
  strip loc <> "" ->
  requests_get env (complete_url env loc) 10 = inr resp ->
  (status_code resp < 500)%Z ->
  json resp = inr (PDict d) ->
  py_eq_200 (dict_get "cod" d PNone) = true ->
  dict_get "main" d (PDict []) = PDict m ->
  dict_lookup "weather" d = Some (PDict (kv :: w)) ->
  outcome (get_weather env (PStr loc)) = inr err_format.
Proof.
  intros Hloc Hget Hstatus Hjson Hcod Hmain Hweather.
  rewrite (get_weather_nonblank loc Hloc). unfold fetch_weather.
  rewrite Hget. apply Z.leb_gt in Hstatus.
  cbn [bind emit lift ret]. rewrite Hstatus, Hjson.
  cbn [bind lift ret py_get app]. rewrite Hcod.
  cbn [bind lift ret py_get app]. rewrite Hmain.
  assert (Hw : dict_get "weather" d (PList []) = PDict (kv :: w))
    by (unfold dict_get; now rewrite Hweather).
  cbn [bind lift ret py_get app]. rewrite !Hw.
  reflexivity.
Qed.

(** *** The whole run *)

(** The answer of lines 236-248 to a prompt: the stripped text of the
    model, or the fixed apology when the call raises or has no text. *)
Definition final_answer_for (prompt : string) : string :=
  match generate_content env prompt with
  | inr (Some text) => strip text
  | _ => final_answer_fallback
  end.

Lemma generate_final_answer_exact (prompt : string) :
  generate_final_answer env prompt = ([LlmCall prompt], inr (final_answer_for prompt)).
Proof.
  unfold generate_final_answer, generate_text, final_answer_for.
  destruct (generate_content env prompt) as [e | [text |]]; reflexivity.
Qed.

(** What a run returns after a tool stage that left [x] behind. *)
Definition result_after (q : string) (i : intent) (x : execution) : agent_result :=
  {| response := final_answer_for (chosen_prompt q i x);
     debug := {|
       debug_parsed_intent :=
         match parsed_intent i with Some p => p | None => PStr "Parsing Failed" end;
       debug_tool_called :=
         if result_truthy (tool_result x) then tool_to_use i else PStr "none";
       debug_tool_parameters := parameters i;
       debug_tool_result :=
         if result_truthy (tool_result x)
         then match tool_result x with Some r => r | None => "None" end
         else "N/A"
     |} |}.

Lemma run_agent_after_execute_exact
    (q : string) (i : intent) (t : list event) (x : execution) :
  parse_intent env q = ([LlmCall (intent_prompt env q)], inr i) ->
  intent_shape i ->
  execute_tool env (tool_to_use i) (parameters i) = (t, inr x) ->
  (result_truthy (tool_result x) = true ->
   truthy (tool_to_use i) = true /\ py_eq_str (tool_to_use i) "none" = false) ->
  (result_truthy (tool_result x) = false ->
   py_eq_str (tool_after x) "none_missing_params" = false) ->
  run_agent env q
  = (LlmCall (intent_prompt env q) :: t ++ [LlmCall (chosen_prompt q i x)],
     inr (result_after q i x))%list.
Proof.
  intros E1 Hi E2 Hyes Hno.
  destruct (final_stage_returns q i x Hi Hyes Hno) as [E3 E5].
  unfold run_agent. rewrite E1. cbn [bind]. rewrite E2. cbn [bind]. rewrite E3.
  cbn [bind ret]. fold (chosen_prompt q i x).
  rewrite generate_final_answer_exact. cbn [bind]. rewrite E5. cbn [bind ret app].
  reflexivity.
Qed.

(** The call of line 192 under its handler. *)
Definition tool_call_result (params : pyval) : string :=
  match outcome (call_with_kwargs (get_weather_function env) params) with
  | inr r => r
  | inl _ => err_tool_failed env (PStr "get_weather")
  end.

Lemma tool_call_exact (params : pyval) :
  try_except
    (emit (ToolCall "get_weather" params) ;;;
     call_with_kwargs (get_weather_function env) params)
    (fun _ => ret (err_tool_failed env (PStr "get_weather")))
  = (ToolCall "get_weather" params
     :: trace (call_with_kwargs (get_weather_function env) params),
     inr (tool_call_result params)).
Proof.
  unfold tool_call_result.
  destruct (call_with_kwargs (get_weather_function env) params) as [t [e | r]];
    cbn [bind emit try_except ret app trace outcome fst snd]; [| reflexivity].
  now rewrite app_nil_r.
Qed.

Lemma texty_call_with_kwargs (params : pyval) :
  texty (call_with_kwargs (get_weather_function env) params).
Proof.
  unfold call_with_kwargs. destruct params; try apply texty_raise.
  destruct (forallb _ _); [| apply texty_raise].
  destruct (bind_arguments _ d) as [[| v [| ? ?]] |]; try apply texty_raise.
  apply texty_get_weather.
Qed.

Lemma tool_call_result_nonempty (params : pyval) :
  (tool_call_result params =? "") = false.
Proof.
  unfold tool_call_result.
  destruct (outcome (call_with_kwargs (get_weather_function env) params)) as [e | r] eqn:E.
  - apply err_tool_failed_nonempty.
  - exact (texty_call_with_kwargs params r E).
Qed.

(** A run that reaches the call of line 192. *)
Lemma run_agent_invokes_exact (q : string) (i : intent) :
  outcome (parse_intent env q) = inr i ->
  tool_to_use i = PStr "get_weather" ->
  all_present ["location"] (parameters i) = ret true ->
  exists dbg,
    run_agent env q
    = (LlmCall (intent_prompt env q)
       :: ToolCall "get_weather" (parameters i)
       :: trace (call_with_kwargs (get_weather_function env) (parameters i))
       ++ [LlmCall (tool_result_prompt env q (PStr "get_weather") (parameters i)
                      (tool_call_result (parameters i)))],
       inr {| response :=
                final_answer_for
                  (tool_result_prompt env q (PStr "get_weather") (parameters i)
                     (tool_call_result (parameters i)));
              debug := dbg |})%list
    /\ debug_tool_called dbg = PStr "get_weather"
    /\ debug_tool_parameters dbg = parameters i
    /\ debug_tool_result dbg = tool_call_result (parameters i).
Proof.
  intros Hparse Htool Hall.
  destruct (parse_intent_classified q i Hparse) as [E1 Hi].
  pose proof (execute_tool_invokes (parameters i) Hall) as E2.
  rewrite tool_call_exact in E2. cbn [bind ret] in E2. rewrite app_nil_r in E2.
  rewrite <- Htool in E2 at 1.
  rewrite (run_agent_after_execute_exact q i _ _ E1 Hi E2).
  - unfold result_after, chosen_prompt. cbn [tool_result result_truthy].
    rewrite tool_call_result_nonempty. cbn [negb app]. rewrite Htool.
    eexists. split; [reflexivity |]. cbn. now repeat split.
  - intros _. now rewrite Htool.
  - intros _. reflexivity.
Qed.

(** Every run: the validation raises after the first call of the model,
    or the run returns after a second call of the model, with at most the
    call of the tool in between. *)
Lemma run_agent_cases (q : string) :
  exists i, outcome (parse_intent env q) = inr i /\
  ((validation_raises i = true
    /\ run_agent env q = ([LlmCall (intent_prompt env q)], inl TypeError))
   \/ (validation_raises i = false
       /\ exists mid prompt dbg,
            run_agent env q
            = (LlmCall (intent_prompt env q) :: mid ++ [LlmCall prompt],
               inr {| response := final_answer_for prompt; debug := dbg |})%list
            /\ (prompt = no_tool_prompt q
                \/ exists result,
                     prompt = tool_result_prompt env q (tool_to_use i) (parameters i) result)
            /\ (mid = []
                \/ mid = ToolCall "get_weather" (parameters i)
                         :: trace (call_with_kwargs (get_weather_function env)
                                     (parameters i))))).
Proof.
  destruct (parse_intent_returns q) as (i & E1 & Hi).
  exists i. split; [now rewrite E1 |].
  assert (Hparse : outcome (parse_intent env q) = inr i) by now rewrite E1.
  unfold validation_raises.
  assert (Hsilent : forall x,
    execute_tool env (tool_to_use i) (parameters i) = ret x ->
    (result_truthy (tool_result x) = true ->
     truthy (tool_to_use i) = true /\ py_eq_str (tool_to_use i) "none" = false) ->
    (result_truthy (tool_result x) = false ->
     py_eq_str (tool_after x) "none_missing_params" = false) ->
    exists mid prompt dbg,
      run_agent env q
      = (LlmCall (intent_prompt env q) :: mid ++ [LlmCall prompt],
         inr {| response := final_answer_for prompt; debug := dbg |})%list
      /\ (prompt = no_tool_prompt q
          \/ exists result,
               prompt = tool_result_prompt env q (tool_to_use i) (parameters i) result)
      /\ (mid = []
          \/ mid = ToolCall "get_weather" (parameters i)
                   :: trace (call_with_kwargs (get_weather_function env) (parameters i)))).
  { intros x E2 Hyes Hno.
    exists [], (chosen_prompt q i x). eexists.
    rewrite (run_agent_after_execute_exact q i [] x E1 Hi E2 Hyes Hno).
    split; [reflexivity |]. split; [| now left].
    unfold chosen_prompt. destruct (result_truthy (tool_result x)); [right | now left].
    now eexists. }
  destruct (truthy (tool_to_use i)) eqn:Ht; cbn [andb].
  2: { right. split; [reflexivity |].
       apply (Hsilent _ (execute_tool_no_tool _ _ (or_introl Ht))).
       - discriminate.
       - intros _. cbn [tool_after]. destruct (tool_to_use i); try reflexivity.
         cbn in Ht |- *. apply negb_false_iff, String.eqb_eq in Ht. now subst. }
  destruct (hashable (tool_to_use i)) eqn:Hh; cbn [negb orb].
  2: { left. split; [reflexivity |].
       exact (run_agent_raises q i [] TypeError E1 (execute_tool_unhashable _ _ Ht Hh)). }
  destruct (py_eq_str (tool_to_use i) "get_weather") eqn:Hg; cbn [andb].
  - apply py_eq_str_true in Hg.
    destruct (is_container (parameters i)) eqn:Hc; cbn [negb].
    + right. split; [reflexivity |].
      destruct (all_present_container _ Hc) as ([|] & Hall).
      * destruct (run_agent_invokes_exact q i Hparse Hg Hall) as (dbg & E & _).
        exists (ToolCall "get_weather" (parameters i)
                :: trace (call_with_kwargs (get_weather_function env) (parameters i))),
               (tool_result_prompt env q (PStr "get_weather") (parameters i)
                  (tool_call_result (parameters i))), dbg.
        rewrite E. split; [reflexivity |].
        split; [right; rewrite Hg; now eexists | now right].
      * pose proof (execute_tool_missing _ Hall) as E2. rewrite <- Hg in E2 at 1.
        apply (Hsilent _ E2).
        -- intros _. now rewrite Hg.
        -- cbn [tool_result result_truthy]. now rewrite err_missing_params_nonempty.
    + left. split; [reflexivity |].
      pose proof (execute_tool_validation_raises _ TypeError
                    (all_present_not_container _ Hc)) as E2.
      rewrite <- Hg in E2. exact (run_agent_raises q i [] TypeError E1 E2).
  - right. split; [reflexivity |].
    destruct (py_eq_str (tool_to_use i) "none") eqn:Hn.
    + apply (Hsilent _ (execute_tool_no_tool _ _ (or_intror Hn))).
      * discriminate.
      * intros _. cbn [tool_after]. apply py_eq_str_true in Hn. now rewrite Hn.
    + apply (Hsilent _ (execute_tool_unselected _ (parameters i) Ht Hh Hn Hg)).
      * intros _. now split.
      * cbn [tool_result result_truthy]. now rewrite err_tool_unavailable_nonempty.
Qed.

Lemma forallb_only_location (keys : list string) :
  forallb (fun k => existsb (String.eqb k) ["location"]) keys
  = forallb (fun k => k =? "location") keys.
Proof.
  induction keys as [| k keys IH]; [reflexivity |].
  cbn [forallb]. rewrite IH. cbn [existsb]. now rewrite orb_false_r.
Qed.

Lemma dict_lookup_has_key (k : string) (d : list (string * pyval)) (v : pyval) :
  dict_lookup k d = Some v -> has_key k d = true.
Proof.
  unfold has_key, dict_keys.
  induction d as [| [k' x] d IH]; cbn [dict_lookup map fst existsb]; [discriminate |].
  destruct (k' =? k); [reflexivity |]. intros H. now rewrite IH.
Qed.

(** The call of line 192 on an object whose only key is [location]. *)
Lemma call_with_kwargs_location (d : list (string * pyval)) (v : pyval) :
  forallb (fun k => k =? "location") (dict_keys d) = true ->
  dict_lookup "location" d = Some v ->
  call_with_kwargs (get_weather_function env) (PDict d) = get_weather env v.
Proof.
  intros Hkeys Hv. unfold call_with_kwargs.
  change (required_params_of (get_weather_function env)) with ["location"].
  rewrite forallb_only_location, Hkeys. cbn [bind_arguments]. now rewrite Hv.
Qed.

(** C4, as amended: for a query classified to a registered tool whose
    parsed parameters mapping has every required parameter name and no
    other key, the tool function is invoked exactly once, on the parsed
    values as its arguments: the run does what the body of the function
    does on them, between the two calls of the model, and the tool result
    of the final prompt and of the debug information is the text that the
    body returns, or the text "Failed to execute the tool" when it
    raises. *)
Theorem tool_function_invoked_on_parsed_parameters
    (q : string) (i : intent) (name : string) (f : tool_function)
    (d : list (string * pyval)) (args : list pyval) :
  outcome (parse_intent env q) = inr i ->
  tool_to_use i = PStr name ->
  TOOLS_lookup name (TOOLS env) = Some f ->
  parameters i = PDict d ->
  forallb (fun k => existsb (String.eqb k) (required_params_of f)) (dict_keys d) = true ->
  bind_arguments (required_params_of f) d = Some args ->
  exists res,
    run_agent env q
    = (LlmCall (intent_prompt env q) :: ToolCall name (PDict d) :: trace (body f args)
       ++ [LlmCall (tool_result_prompt env q (PStr name) (PDict d)
                      (match outcome (body f args) with
                       | inr r => r
                       | inl _ => err_tool_failed env (PStr name)
                       end))],
       inr res)%list
    /\ filter is_tool_call (trace (run_agent env q)) = [ToolCall name (PDict d)]
    /\ debug_tool_result (debug res)
       = match outcome (body f args) with
         | inr r => r
         | inl _ => err_tool_failed env (PStr name)
         end.
Proof.
  intros Hparse Htool Hreg Hparams Hkeys Hbind.
  destruct (registered_tool name f Hreg) as [-> ->].
  assert (Hcall : call_with_kwargs (get_weather_function env) (PDict d)
                  = body (get_weather_function env) args).
  { unfold call_with_kwargs. now rewrite Hkeys, Hbind. }
  assert (Hpresent : all_present ["location"] (PDict d) = ret true).
  { rewrite all_present_dict. rewrite required_params_get_weather in Hbind.
    cbn [bind_arguments] in Hbind.
    destruct (dict_lookup "location" d) as [v |] eqn:Hv; [| discriminate].
    now rewrite (dict_lookup_has_key _ _ _ Hv). }
  destruct (run_agent_invokes_exact q i Hparse Htool) as (dbg & E & _ & _ & Hr).
  - now rewrite Hparams.
  - unfold tool_call_result in E, Hr. rewrite Hparams in E, Hr.
    pose proof (call_with_kwargs_trace (PDict d)) as Htrace.
    rewrite Hcall in E, Hr, Htrace.
    eexists. split; [exact E |]. split; [| exact Hr].
    rewrite E. cbn [trace fst filter is_tool_call]. rewrite filter_app.
    destruct Htrace as [-> | [loc ->]]; reflexivity.
Qed.



(** X11: when the value of [location] is true as a condition and is not a
    string, [get_weather] raises; the handler of line 193 turns this into
    the text "Failed to execute the tool", no request is sent, and the run
    returns. *)
Theorem non_string_location_fails_tool
    (q : string) (i : intent) (d : list (string * pyval)) (v : pyval) :
  outcome (parse_intent env q) = inr i ->
  tool_to_use i = PStr "get_weather" ->
  parameters i = PDict d ->
  forallb (fun k => k =? "location") (dict_keys d) = true ->
  dict_lookup "location" d = Some v ->
  truthy v = true ->
  (forall s, v <> PStr s) ->
  exists res,
    run_agent env q
    = ([LlmCall (intent_prompt env q);
        ToolCall "get_weather" (PDict d);
        LlmCall (tool_result_prompt env q (PStr "get_weather") (PDict d)
                   (err_tool_failed env (PStr "get_weather")))],
       inr res)
    /\ debug_tool_result (debug res) = err_tool_failed env (PStr "get_weather").
Proof.
  intros Hparse Htool Hparams Hkeys Hv Ht Hs.
  destruct (run_agent_invokes_exact q i Hparse Htool) as (dbg & E & _ & _ & Hr).
  - rewrite Hparams, all_present_dict. now rewrite (dict_lookup_has_key _ _ _ Hv).
  - unfold tool_call_result in E, Hr. rewrite Hparams in E, Hr.
    rewrite (call_with_kwargs_location d v Hkeys Hv) in E, Hr.
    rewrite (get_weather_non_string_raises v Ht Hs) in E, Hr.
    cbn [trace outcome fst snd app] in E, Hr.
    eexists. split; [exact E | exact Hr].
Qed.


(** X13: when the classification has the tool name "none", or one that is
    false as a condition ([null], the empty string, zero, an empty list
    or object), the run calls no tool and sends the conversational
    prompt; the result reports the tool "none", the result "N/A" and the
    parameters as parsed. *)
Theorem no_tool_selected_conversational (q : string) (i : intent) :
  outcome (parse_intent env q) = inr i ->
  truthy (tool_to_use i) = false \/ tool_to_use i = PStr "none" ->
  exists res,
    run_agent env q
    = ([LlmCall (intent_prompt env q); LlmCall (no_tool_prompt q)], inr res)
    /\ debug_tool_called (debug res) = PStr "none"
    /\ debug_tool_result (debug res) = "N/A"
    /\ debug_tool_parameters (debug res) = parameters i.
Proof.
  intros Hparse Hnone.
  destruct (parse_intent_classified q i Hparse) as [E1 Hi].
  assert (Hn : truthy (tool_to_use i) = false \/ py_eq_str (tool_to_use i) "none" = true).
  { destruct Hnone as [H | H]; [now left | right; now rewrite H]. }
  pose proof (execute_tool_no_tool (tool_to_use i) (parameters i) Hn) as E2.
  rewrite (run_agent_after_execute_exact q i [] _ E1 Hi E2).
  - eexists. split; [reflexivity |]. cbn. now repeat split.
  - discriminate.
  - intros _. cbn [tool_after]. destruct Hnone as [H | ->]; [| reflexivity].
    destruct (tool_to_use i); try reflexivity.
    cbn in H |- *. apply negb_false_iff, String.eqb_eq in H. now subst.
Qed.

(** X14: when a tool name is reported but the tool is unknown, or is
    registered and lacks its required parameter, the debug information
    names the classified tool as [tool_called] although the run made no
    tool call. *)
Theorem tool_called_reported_without_call
    (q : string) (i : intent) (name : string) :
  outcome (parse_intent env q) = inr i ->
  tool_to_use i = PStr name ->
  name <> "" ->
  name <> "none" ->
  TOOLS_lookup name (TOOLS env) = None
  \/ (name = "get_weather" /\ all_present ["location"] (parameters i) = ret false) ->
  exists res,
    outcome (run_agent env q) = inr res
    /\ debug_tool_called (debug res) = PStr name
    /\ filter is_tool_call (trace (run_agent env q)) = [].
Proof.
  intros Hparse Htool Hne Hnone Hcase.
  destruct (parse_intent_classified q i Hparse) as [E1 Hi].
  assert (Hyes : truthy (tool_to_use i) = true /\ py_eq_str (tool_to_use i) "none" = false).
  { rewrite Htool. cbn [truthy py_eq_str].
    apply String.eqb_neq in Hne, Hnone. now rewrite Hne, Hnone. }
  destruct Hcase as [Hreg | [-> Hall]].
  - pose proof (execute_tool_unavailable name (parameters i) Hne Hnone Hreg) as E2.
    rewrite <- Htool in E2 at 1.
    rewrite (run_agent_after_execute_exact q i [] _ E1 Hi E2).
    + eexists. split; [reflexivity |]. cbn [outcome trace fst snd result_after debug
        debug_tool_called tool_result result_truthy].
      rewrite err_tool_unavailable_nonempty. cbn [negb]. now split.
    + intros _. exact Hyes.
    + cbn [tool_result result_truthy]. now rewrite err_tool_unavailable_nonempty.
  - pose proof (execute_tool_missing _ Hall) as E2. rewrite <- Htool in E2 at 1.
    rewrite (run_agent_after_execute_exact q i [] _ E1 Hi E2).
    + eexists. split; [reflexivity |]. cbn [outcome trace fst snd result_after debug
        debug_tool_called tool_result result_truthy].
      rewrite err_missing_params_nonempty. cbn [negb]. now split.
    + intros _. exact Hyes.
    + cbn [tool_result result_truthy]. now rewrite err_missing_params_nonempty.
Qed.

Lemma missing_params_prompt_not_in_trace
    (q q' : string) (name : pyval) (required : list string) :
  ~ In (LlmCall (missing_params_prompt env q' name required)) (trace (run_agent env q)).
Proof.
  destruct (run_agent_cases q)
    as (i & _ & [[_ E] | (_ & mid & prompt & dbg & E & Hprompt & Hmid)]);
    rewrite E; cbn [trace fst]; intros Hin.
  - destruct Hin as [H | []].
    apply (missing_params_prompt_not_intent q q' name required). congruence.
  - destruct Hin as [H | Hin].
    { apply (missing_params_prompt_not_intent q q' name required). congruence. }
    apply in_app_or in Hin as [Hin | [H | []]].
    + destruct Hmid as [-> | ->]; [exact Hin |].
      destruct Hin as [H | Hin]; [discriminate H |].
      destruct (call_with_kwargs_trace (parameters i)) as [Ht | [loc Ht]];
        rewrite Ht in Hin; [exact Hin |].
      destruct Hin as [H | []]. discriminate H.
    + destruct Hprompt as [-> | [result ->]].
      * apply (missing_params_prompt_not_no_tool q q' name required). congruence.
      * apply (missing_params_prompt_not_tool_result q q' (tool_to_use i) name
                 (parameters i) result required). congruence.
Qed.

(** Whether a trace holds a call of the model on [prompt]. *)
Definition sends_prompt (prompt : string) (t : list event) : bool :=
  existsb (fun e => match e with
                    | LlmCall contents => contents =? prompt
                    | _ => false
                    end) t.

(** X15: the prompt of lines 223-227, which asks for the missing
    parameters, is never sent to the model: for no query, tool name and
    list of parameters does a run contain a call of the model with it. *)
Theorem missing_params_prompt_never_sent
    (q q' : string) (name : pyval) (required : list string) :
  sends_prompt (missing_params_prompt env q' name required) (trace (run_agent env q))
  = false.
Proof.
  unfold sends_prompt.
  destruct (existsb _ (trace (run_agent env q))) eqn:E; [| reflexivity].
  apply existsb_exists in E as (e & Hin & He).
  destruct e as [contents | |]; try discriminate He.
  apply String.eqb_eq in He. subst contents.
  now elim (missing_params_prompt_not_in_trace q q' name required).
Qed.

(** X16: every run starts with the call of the model on the intent
    prompt.  Either the validation raises [TypeError] right after it, or
    the run returns after exactly one more call of the model, which comes
    last; in between there is nothing, or one call of [get_weather], alone
    or followed by its one request with the timeout 10. *)
Theorem run_agent_call_discipline (q : string) :
  run_agent env q = ([LlmCall (intent_prompt env q)], inl TypeError)
  \/ exists prompt res,
       outcome (run_agent env q) = inr res
       /\ (trace (run_agent env q) = [LlmCall (intent_prompt env q); LlmCall prompt]
           \/ (exists params,
                 trace (run_agent env q)
                 = [LlmCall (intent_prompt env q); ToolCall "get_weather" params;
                    LlmCall prompt])
           \/ (exists params loc,
                 trace (run_agent env q)
                 = [LlmCall (intent_prompt env q); ToolCall "get_weather" params;
                    HttpGet (complete_url env loc) 10; LlmCall prompt])).
Proof.
  destruct (run_agent_cases q)
    as (i & _ & [[_ E] | (_ & mid & prompt & dbg & E & _ & Hmid)]); [now left |].
  right. exists prompt. eexists. rewrite E. split; [reflexivity |].
  cbn [trace fst]. destruct Hmid as [-> | ->]; [now left | right].
  destruct (call_with_kwargs_trace (parameters i)) as [Ht | [loc Ht]]; rewrite Ht.
  - left. now exists (parameters i).
  - right. now exists (parameters i), loc.
Qed.

(** X17: the response of a run that returns is the stripped text that the
    model gave to the last prompt of the run; when that call raises or
    has no text, it is the fixed apology. *)
Theorem final_answer_or_fallback (q : string) (res : agent_result) :
  outcome (run_agent env q) = inr res ->
  exists prompt,
    last (trace (run_agent env q)) (LlmCall "") = LlmCall prompt
    /\ response res = match generate_content env prompt with
                      | inr (Some text) => strip text
                      | _ => final_answer_fallback
                      end.
Proof.
  destruct (run_agent_cases q)
    as (i & _ & [[_ E] | (_ & mid & prompt & dbg & E & _)]); rewrite E;
    cbn [outcome trace fst snd]; [discriminate |].
  intros [= <-]. exists prompt. split; [| reflexivity].
  change (LlmCall (intent_prompt env q) :: mid ++ [LlmCall prompt])%list
    with ((LlmCall (intent_prompt env q) :: mid) ++ [LlmCall prompt])%list.
  apply last_last.
Qed.

Lemma strip_empty_query (q : string) :
  (q =? "") || (strip q =? "") = (strip q =? "").
Proof.
  destruct (String.eqb_spec q "") as [-> | _]; reflexivity.
Qed.

(** X18: the status of the endpoint is 400 when the stripped query is
    empty; otherwise it is 500 when the classification makes the
    validation raise, and 200 in every other case, whatever the
    collaborators do. *)
Theorem endpoint_status (q : string) (i : intent) :
  outcome (parse_intent env q) = inr i ->
  reply_status (snd (handle_agent_request env q))
  = if strip q =? "" then 400%Z
    else if validation_raises i then 500%Z else 200%Z.
Proof.
  intros Hparse. unfold handle_agent_request. rewrite strip_empty_query.
  destruct (strip q =? ""); [reflexivity |].
  destruct (run_agent_outcome q i Hparse) as [[-> Ho] | [-> [r Ho]]];
    unfold outcome in Ho; destruct (run_agent env q) as [t o]; cbn [snd] in Ho;
    now rewrite Ho.
Qed.

(** When the cleaned text of the model decodes to an object, the
    classification is read off the object. *)
Lemma parse_intent_object (q text : string) (d : list (string * pyval)) :
  generate_content env (intent_prompt env q) = inr (Some text) ->
  json_loads env (clean_response_text text) = Some (PDict d) ->
  parse_intent env q
  = ([LlmCall (intent_prompt env q)],
     inr {| tool_to_use := dict_get "tool_name" d PNone;
            parameters := dict_get "parameters" d (PDict []);
            parsed_intent := Some (PDict d) |}).
Proof.
  intros Hllm Hloads. unfold parse_intent, generate_text. rewrite Hllm.
  cbn [bind try_except emit lift ret raise app]. rewrite Hloads. reflexivity.
Qed.

End Properties.

(** ** The cleaning of the text of the model (main.py, line 165) *)

Lemma prefix_nil (s : string) : prefix "" s = true.
Proof. now destruct s. Qed.

Lemma prefix_cons (a b : ascii) (p s : string) :
  prefix (String a p) (String b s) = if Ascii.eqb a b then prefix p s else false.
Proof.
  cbn [prefix]. destruct (ascii_dec a b) as [-> | H].
  - now rewrite Ascii.eqb_refl.
  - apply Ascii.eqb_neq in H. now rewrite H.
Qed.

Lemma prefix_length (p s : string) :
  prefix p s = true -> String.length p <= String.length s.
Proof.
  revert s. induction p as [| a p IH]; intros s H; cbn [String.length]; [lia |].
  destruct s as [| b s]; [discriminate |].
  rewrite prefix_cons in H. destruct (Ascii.eqb a b); [| discriminate].
  specialize (IH s H). cbn [String.length]. lia.
Qed.

Lemma prefix_trans (p a s : string) :
  prefix p a = true -> prefix a s = true -> prefix p s = true.
Proof.
  revert a s. induction p as [| x p IH]; intros a s Hpa Has; [apply prefix_nil |].
  destruct a as [| y a]; [discriminate |]. destruct s as [| z s]; [discriminate |].
  rewrite prefix_cons in *.
  destruct (Ascii.eqb_spec x y) as [-> | _]; [| discriminate].
  destruct (Ascii.eqb y z); [| discriminate]. now apply (IH a s).
Qed.

Lemma prefix_app_long (p b t : string) :
  String.length p <= String.length b -> prefix p (b ++ t) = prefix p b.
Proof.
  revert b. induction p as [| x p IH]; intros b H.
  - now rewrite !prefix_nil.
  - destruct b as [| y b]; cbn [String.length] in H; [lia |].
    cbn [append]. rewrite !prefix_cons. destruct (Ascii.eqb x y); [| reflexivity].
    apply IH. lia.
Qed.

Lemma append_assoc (a b c : string) : (a ++ b) ++ c = a ++ b ++ c.
Proof. induction a as [| x a IH]; cbn [append]; [reflexivity | now rewrite IH]. Qed.

Lemma is_substring_nil (s : string) : is_substring "" s = true.
Proof. destruct s; cbn [is_substring]; now rewrite ?prefix_nil. Qed.

Lemma is_substring_longer (p1 p2 s : string) :
  prefix p1 p2 = true -> is_substring p1 s = false -> is_substring p2 s = false.
Proof.
  intros Hp. induction s as [| c s IH]; cbn [is_substring].
  - intros H. destruct (prefix p2 "") eqn:E; [| reflexivity].
    now rewrite (prefix_trans p1 p2 "" Hp E) in H.
  - intros H. apply orb_false_iff in H as [H1 H2]. rewrite (IH H2), orb_false_r.
    destruct (prefix p2 (String c s)) eqn:E; [| reflexivity].
    now rewrite (prefix_trans p1 p2 _ Hp E) in H1.
Qed.

Lemma is_substring_of_prefix (p a s : string) :
  prefix a s = true -> is_substring p a = true -> is_substring p s = true.
Proof.
  revert s. induction a as [| x a IH]; intros s Has Hp.
  - cbn [is_substring] in Hp. destruct p; [apply is_substring_nil | discriminate].
  - destruct s as [| y s]; [discriminate |].
    pose proof Has as Has'. rewrite prefix_cons in Has'.
    destruct (Ascii.eqb x y); [| discriminate].
    cbn [is_substring] in Hp |- *. apply orb_true_iff in Hp as [Hp | Hp].
    + now rewrite (prefix_trans p _ _ Hp Has).
    + rewrite (IH s Has' Hp). apply orb_true_r.
Qed.

Lemma is_substring_lstrip (p s : string) :
  is_substring p s = false -> is_substring p (lstrip s) = false.
Proof.
  induction s as [| c s IH]; cbn [lstrip]; [trivial |].
  intros H. destruct (isspace c); [| exact H].
  cbn [is_substring] in H. apply orb_false_iff in H as [_ H]. now apply IH.
Qed.

Lemma prefix_rstrip (s : string) : prefix (rstrip s) s = true.
Proof.
  induction s as [| c s IH]; [reflexivity |]. cbn [rstrip].
  destruct (rstrip s) as [| x r].
  - destruct (isspace c); [apply prefix_nil |].
    now rewrite prefix_cons, Ascii.eqb_refl, prefix_nil.
  - now rewrite prefix_cons, Ascii.eqb_refl.
Qed.

Lemma is_substring_strip (p s : string) :
  is_substring p s = false -> is_substring p (strip s) = false.
Proof.
  intros H. unfold strip. apply is_substring_lstrip in H.
  destruct (is_substring p (rstrip (lstrip s))) eqn:E; [| reflexivity].
  now rewrite (is_substring_of_prefix p _ _ (prefix_rstrip (lstrip s)) E) in H.
Qed.

Lemma replace_no_occurrence (old new s : string) :
  is_substring old s = false -> replace old new s = s.
Proof.
  unfold replace. induction s as [| c s IH]; cbn [is_substring replace_from].
  - destruct old; [discriminate | reflexivity].
  - intros H. apply orb_false_iff in H as [H1 H2]. rewrite H1. now rewrite (IH H2).
Qed.

Lemma lstrip_head (s : string) :
  lstrip s = "" \/ exists c t, lstrip s = String c t /\ isspace c = false.
Proof.
  induction s as [| c s IH]; [now left |]. cbn [lstrip].
  destruct (isspace c) eqn:E; [exact IH |]. right. now exists c, s.
Qed.

Lemma rstrip_idempotent (s : string) : rstrip (rstrip s) = rstrip s.
Proof.
  induction s as [| c s IH]; [reflexivity |]. cbn [rstrip].
  destruct (rstrip s) as [| x r] eqn:E.
  - destruct (isspace c) eqn:Ec; [reflexivity |]. cbn [rstrip]. now rewrite Ec.
  - cbn [rstrip] in IH |- *. now rewrite IH.
Qed.

Lemma strip_idempotent (s : string) : strip (strip s) = strip s.
Proof.
  unfold strip. destruct (lstrip_head s) as [-> | (c & t & -> & Hc)]; [reflexivity |].
  assert (H : exists r, rstrip (String c t) = String c r).
  { cbn [rstrip]. destruct (rstrip t); [rewrite Hc |]; now eexists. }
  destruct H as (r & Hr). rewrite Hr. cbn [lstrip]. rewrite Hc, <- Hr.
  apply rstrip_idempotent.
Qed.

Lemma rstrip_app_nonspace (s : string) (c : ascii) :
  isspace c = false -> rstrip (s ++ String c "") = s ++ String c "".
Proof.
  intros Hc. induction s as [| x s IH]; cbn [append rstrip]; [now rewrite Hc |].
  rewrite IH. now destruct s.
Qed.

(** No occurrence of the longer fence starts in [b ++ "```"] when [b] has
    no fence. *)
Lemma no_json_fence_at (b : string) :
  is_substring "```" b = false -> prefix "```json" (b ++ "```") = false.
Proof.
  intros H. destruct (prefix "```json" (b ++ "```")) eqn:E; [| reflexivity].
  destruct (Nat.le_gt_cases 3 (String.length b)) as [Hlen | Hlen].
  - assert (Hp : prefix "```" (b ++ "```") = true)
      by exact (prefix_trans "```" "```json" _ eq_refl E).
    rewrite (prefix_app_long "```" b "```" Hlen) in Hp.
    destruct b as [| c b]; [cbn in Hlen; lia |].
    cbn [is_substring] in H. now rewrite Hp in H.
  - apply prefix_length in E.
    assert (Hl : forall x y, String.length (x ++ y) = String.length x + String.length y).
    { intros x y. induction x as [| ? x IHx]; cbn [append String.length]; [reflexivity |].
      now rewrite IHx. }
    rewrite Hl in E. cbn [String.length] in E. lia.
Qed.

Lemma replace_json_fence_absent (b : string) :
  is_substring "```" b = false -> replace "```json" "" (b ++ "```") = b ++ "```".
Proof.
  unfold replace. induction b as [| c b IH]; intros H; [reflexivity |].
  pose proof (no_json_fence_at _ H) as Hmiss.
  cbn [is_substring] in H. apply orb_false_iff in H as [_ H].
  cbn [append] in Hmiss |- *. cbn [replace_from]. rewrite Hmiss. now rewrite (IH H).
Qed.

Lemma replace_closing_fence (b : string) :
  is_substring "```" b = false -> replace "```" "" (b ++ "```") = b.
Proof.
  unfold replace. induction b as [| c b IH]; intros H; [reflexivity |].
  pose proof H as H'. cbn [is_substring] in H'.
  apply orb_false_iff in H' as [Hhead Htail].
  cbn [append]. cbn [replace_from].
  destruct (prefix "```" (String c (b ++ "```"))) eqn:E.
  - destruct (Nat.le_gt_cases 3 (String.length (String c b))) as [Hlen | Hlen].
    + change (String c (b ++ "```")) with (String c b ++ "```") in E.
      rewrite (prefix_app_long "```" _ "```" Hlen) in E. now rewrite E in Hhead.
    + rewrite prefix_cons in E.
      destruct (Ascii.eqb_spec "`" c) as [<- | _]; [| discriminate].
      destruct b as [| c2 b]; [reflexivity |].
      cbn [append] in E. rewrite prefix_cons in E.
      destruct (Ascii.eqb_spec "`" c2) as [<- | _]; [| discriminate].
      destruct b as [| c3 b]; [reflexivity |].
      cbn [String.length] in Hlen. lia.
  - now rewrite (IH Htail).
Qed.

Lemma replace_json_fence_open (rest : string) :
  replace "```json" "" ("```json" ++ rest) = replace "```json" "" rest.
Proof.
  unfold replace. cbn. now rewrite prefix_nil.
Qed.

(** X19: a text without three backticks in a row is only stripped. *)
Theorem clean_without_fence (text : string) :
  is_substring "```" text = false ->
  clean_response_text text = strip text.
Proof.
  intros H. unfold clean_response_text.
  pose proof (is_substring_strip _ _ H) as Hs.
  rewrite (replace_no_occurrence "```json" "" (strip text)
             (is_substring_longer "```" "```json" _ eq_refl Hs)).
  rewrite (replace_no_occurrence "```" "" (strip text) Hs).
  apply strip_idempotent.
Qed.

(** A text fenced as Markdown JSON is cleaned to its stripped body. *)
Lemma clean_fenced_json (body : string) :
  is_substring "```" body = false ->
  clean_response_text ("```json" ++ body ++ "```") = strip body.
Proof.
  intros H. unfold clean_response_text.
  assert (Hstrip : strip ("```json" ++ body ++ "```") = "```json" ++ body ++ "```").
  { unfold strip.
    change (lstrip ("```json" ++ body ++ "```")) with ("```json" ++ body ++ "```").
    change "```" with ("``" ++ "`"). rewrite <- !append_assoc.
    now apply rstrip_app_nonspace. }
  rewrite Hstrip, replace_json_fence_open.
  now rewrite (replace_json_fence_absent body H), (replace_closing_fence body H).
Qed.

(** X20: a reply fenced as Markdown JSON is classified from its body.
    When the model answers the opening fence with the tag [json], a body
    without three backticks in a row and the closing fence, and the
    stripped body decodes to an object, the tool name is the [tool_name]
    entry of the object, [None] when absent, and the parameters are its
    [parameters] entry, the empty object when absent. *)
Theorem fenced_reply_classified
    (env : Collaborators) (q body : string) (d : list (string * pyval)) :
  generate_content env (intent_prompt env q) = inr (Some ("```json" ++ body ++ "```")) ->
  is_substring "```" body = false ->
  json_loads env (strip body) = Some (PDict d) ->
  parse_intent env q
  = ([LlmCall (intent_prompt env q)],
     inr {| tool_to_use := dict_get "tool_name" d PNone;
            parameters := dict_get "parameters" d (PDict []);
            parsed_intent := Some (PDict d) |}).
Proof.
  intros Hllm Hbody Hloads.
  apply (parse_intent_object env q _ d Hllm).
  now rewrite (clean_fenced_json body Hbody).
Qed.

(** ** The properties at concrete inputs *)

Lemma weather_request_timeout_witness :
  trace (get_weather (weather_env (inl Timeout)) (PStr "Paris"))
  = [HttpGet (complete_url (weather_env (inl Timeout)) "Paris") 10]
  /\ outcome (get_weather (weather_env (inl Timeout)) (PStr "Paris")) = inr err_timeout.
Proof.
  destruct (weather_request_timeout (weather_env (inl Timeout)) "Paris") as (Ht & Ho & _).
  - vm_compute. discriminate.
  - split; [exact Ht | apply Ho; reflexivity].
Defined.

Lemma weather_success_sentence_witness :
  outcome (get_weather (weather_env (upstream_json 200 (PDict paris_body))) (PStr "Paris"))
  = inr ("The weather in Paris is currently clear sky with a temperature of 21"
         ++ degree ++ "C (feels like 20" ++ degree ++ "C) and humidity of 40%.").
Proof.
  exact (weather_success_sentence (weather_env (upstream_json 200 (PDict paris_body)))
           "Paris" {| status_code := 200; json := inr (PDict paris_body) |}
           paris_body paris_main (PStr "clear sky")
           ltac:(vm_compute; discriminate) eq_refl eq_refl eq_refl eq_refl eq_refl
           (first_weather [("description", PStr "clear sky")] [])).
Defined.

(** C6 as stated fails on three responses whose body has [cod] equal to
    200: a body whose [main] is [null], a body whose [weather] list holds
    [null], and a well-formed body sent with status 503.  The tool returns
    an error text, and no success sentence is an error text. *)
Lemma weather_cod_200_without_sentence :
  py_eq_200 (dict_get "cod" null_main_body PNone) = true
  /\ outcome (get_weather (weather_env (upstream_json 200 (PDict null_main_body)))
                (PStr "Paris")) = inr err_unexpected
  /\ py_eq_200 (dict_get "cod" null_weather_body PNone) = true
  /\ outcome (get_weather (weather_env (upstream_json 200 (PDict null_weather_body)))
                (PStr "Paris")) = inr err_unexpected
  /\ py_eq_200 (dict_get "cod" paris_body PNone) = true
  /\ outcome (get_weather (weather_env (upstream_json 503 (PDict paris_body)))
                (PStr "Paris")) = inr err_connection
  /\ (forall env c d t f h,
        weather_sentence env c d t f h <> err_unexpected
        /\ weather_sentence env c d t f h <> err_connection).
Proof.
  repeat split; try (vm_compute; reflexivity); discriminate.
Qed.

(** C4 as stated fails on the answer
    [{"tool_name": "get_weather",
      "parameters": {"location": "Paris", "units": "metric"}}]: the
    parameters have the required name, yet binding the keyword [units]
    raises [TypeError] and the body of [get_weather] is never entered.  On
    "Paris" the body would send its request; the run sends none and its
    tool result is the text "Failed to execute the tool". *)
Lemma extra_key_tool_not_entered :
  outcome (parse_intent env_extra_param "Weather in Paris, metric?")
  = inr (parsed_as (PStr "get_weather") (PDict extra_params))
  /\ TOOLS_lookup "get_weather" (TOOLS env_extra_param)
     = Some (get_weather_function env_extra_param)
  /\ forallb (fun param => has_key param extra_params)
       (required_params_of (get_weather_function env_extra_param)) = true
  /\ call_with_kwargs (get_weather_function env_extra_param) (PDict extra_params)
     = ([], inl TypeError)
  /\ trace (get_weather env_extra_param (PStr "Paris"))
     = [HttpGet (complete_url env_extra_param "Paris") 10]
  /\ filter is_http_get (trace (run_agent env_extra_param "Weather in Paris, metric?")) = []
  /\ (exists r, outcome (run_agent env_extra_param "Weather in Paris, metric?") = inr r
                /\ debug_tool_result (debug r)
                   = "Error: Failed to execute the tool 'get_weather'.").
Proof.
  repeat split; try (vm_compute; reflexivity).
  eexists. split; vm_compute; reflexivity.
Qed.

Lemma tool_function_invoked_on_parsed_parameters_witness :
  exists res,
    run_agent env_paris "What's the weather like in Paris?"
    = ([LlmCall (intent_prompt env_paris "What's the weather like in Paris?");
        ToolCall "get_weather" (PDict paris_params);
        HttpGet (complete_url env_paris "Paris") 10;
        LlmCall (tool_result_prompt env_paris "What's the weather like in Paris?"
                   (PStr "get_weather") (PDict paris_params)
                   ("The weather in Paris is currently clear sky with a temperature of 21"
                    ++ degree ++ "C (feels like 20" ++ degree
                    ++ "C) and humidity of 40%."))],
       inr res)
    /\ filter is_tool_call (trace (run_agent env_paris "What's the weather like in Paris?"))
       = [ToolCall "get_weather" (PDict paris_params)]
    /\ debug_tool_result (debug res)
       = "The weather in Paris is currently clear sky with a temperature of 21"
         ++ degree ++ "C (feels like 20" ++ degree ++ "C) and humidity of 40%.".
Proof.
  apply (tool_function_invoked_on_parsed_parameters env_paris
           "What's the weather like in Paris?"
           (parsed_as (PStr "get_weather") (PDict paris_params))
           "get_weather" (get_weather_function env_paris) paris_params [PStr "Paris"]);
    vm_compute; reflexivity.
Defined.


(** C1 as stated fails on the answer
    [{"tool_name": "get_weather", "parameters": {}}]: the tool stage
    produces a tool result, so the final prompt is the one that carries a
    tool result and not the prompt that asks for the missing parameters. *)
Lemma missing_params_prompt_unused :
  outcome (parse_intent env_no_params "How's the weather?")
  = inr (parsed_as (PStr "get_weather") (PDict []))
  /\ has_key "location" [] = false
  /\ outcome (execute_tool env_no_params (PStr "get_weather") (PDict []))
     = inr {| tool_after := PStr "none_missing_params";
              tool_result := Some "Error: I need more information to use the 'get_weather' tool. Please provide: location.";
              required_params := Some ["location"] |}
  /\ trace (run_agent env_no_params "How's the weather?")
     = [LlmCall (intent_prompt env_no_params "How's the weather?");
        LlmCall (tool_result_prompt env_no_params "How's the weather?"
                   (PStr "get_weather") (PDict [])
                   "Error: I need more information to use the 'get_weather' tool. Please provide: location.")]
  /\ tool_result_prompt env_no_params "How's the weather?" (PStr "get_weather") (PDict [])
       "Error: I need more information to use the 'get_weather' tool. Please provide: location."
     <> missing_params_prompt env_no_params "How's the weather?" (PStr "get_weather")
          ["location"].
Proof.
  repeat split; try (vm_compute; reflexivity).
  apply String.eqb_neq. vm_compute. reflexivity.
Qed.

Lemma missing_parameters_not_invoked_witness :
  filter is_tool_call (trace (run_agent env_no_params "How's the weather?")) = []
  /\ filter is_http_get (trace (run_agent env_no_params "How's the weather?")) = []
  /\ exists r, outcome (run_agent env_no_params "How's the weather?") = inr r
               /\ debug_tool_result (debug r)
                  = err_missing_params env_no_params (PStr "get_weather") ["location"].
Proof.
  apply (missing_parameters_not_invoked env_no_params "How's the weather?"
           (parsed_as (PStr "get_weather") (PDict []))
           "get_weather" (get_weather_function env_no_params) []);
    vm_compute; reflexivity.
Defined.



(** C2 as stated fails on the answers
    [{"tool_name": "get_weather", "parameters": null}] and
    [{"tool_name": ["get_weather"], "parameters": {}}]: the membership
    tests of lines 188 and 183 raise [TypeError] out of [run_agent], and
    the endpoint answers status 500. *)
Lemma null_parameters_raise :
  outcome (parse_intent env_null_params "How's the weather?")
  = inr (parsed_as (PStr "get_weather") PNone)
  /\ run_agent env_null_params "How's the weather?"
     = ([LlmCall (intent_prompt env_null_params "How's the weather?")], inl TypeError)
  /\ handle_agent_request env_null_params "How's the weather?"
     = ([LlmCall (intent_prompt env_null_params "How's the weather?")],
        HTTPException 500 "Internal Server Error: An unexpected error occurred.")
  /\ outcome (parse_intent env_list_tool_name "How's the weather?")
     = inr (parsed_as (PList [PStr "get_weather"]) (PDict []))
  /\ run_agent env_list_tool_name "How's the weather?"
     = ([LlmCall (intent_prompt env_list_tool_name "How's the weather?")], inl TypeError).
Proof.
  repeat split; vm_compute; reflexivity.
Qed.

Lemma run_agent_returns_unless_validation_raises_witness :
  (exists r, outcome (run_agent env_paris "What's the weather like in Paris?") = inr r)
  /\ outcome (run_agent env_null_params "How's the weather?") = inl TypeError.
Proof.
  split.
  - apply (run_agent_returns_unless_validation_raises env_paris
             "What's the weather like in Paris?"
             (parsed_as (PStr "get_weather") (PDict paris_params))).
    + vm_compute; reflexivity.
    + reflexivity.
  - apply (run_agent_returns_unless_validation_raises env_null_params
             "How's the weather?" (parsed_as (PStr "get_weather") PNone)).
    + vm_compute; reflexivity.
    + reflexivity.
Defined.

(** C3 as stated fails on two answers that lack a required key.  On
    [{"tool_name": "get_weather"}] the tool name is kept, and the final
    prompt carries a tool result instead of being the conversational
    prompt.  On [{"parameters": {"location": "Paris"}}] the tool name is
    [None] and the parameters are not emptied: the result reports them. *)
Lemma absent_parameters_key_keeps_tool :
  dict_lookup "parameters" [("tool_name", PStr "get_weather")] = None
  /\ outcome (parse_intent env_no_parameters_key "How's the weather?")
     = inr {| tool_to_use := PStr "get_weather"; parameters := PDict [];
              parsed_intent := Some (PDict [("tool_name", PStr "get_weather")]) |}
  /\ trace (run_agent env_no_parameters_key "How's the weather?")
     = [LlmCall (intent_prompt env_no_parameters_key "How's the weather?");
        LlmCall (tool_result_prompt env_no_parameters_key "How's the weather?"
                   (PStr "get_weather") (PDict [])
                   "Error: I need more information to use the 'get_weather' tool. Please provide: location.")]
  /\ tool_result_prompt env_no_parameters_key "How's the weather?"
       (PStr "get_weather") (PDict [])
       "Error: I need more information to use the 'get_weather' tool. Please provide: location."
     <> no_tool_prompt "How's the weather?"
  /\ dict_lookup "tool_name" [("parameters", PDict [("location", PStr "Paris")])] = None
  /\ outcome (parse_intent env_no_tool_name_key "Paris?")
     = inr {| tool_to_use := PNone; parameters := PDict [("location", PStr "Paris")];
              parsed_intent :=
                Some (PDict [("parameters", PDict [("location", PStr "Paris")])]) |}
  /\ (exists r, outcome (run_agent env_no_tool_name_key "Paris?") = inr r
                /\ debug_tool_parameters (debug r) = PDict [("location", PStr "Paris")]).
Proof.
  repeat split; try (vm_compute; reflexivity).
  - apply String.eqb_neq. vm_compute. reflexivity.
  - eexists. split; vm_compute; reflexivity.
Qed.

Lemma classification_failure_answers_without_tool_witness :
  outcome (parse_intent env_llm_down "Tell me a joke.") = inr (fallback_intent None)
  /\ answers_without_tool env_llm_down "Tell me a joke." (PDict [])
  /\ outcome (parse_intent env_no_tool_name_key "Paris?")
     = inr {| tool_to_use := PNone; parameters := PDict [("location", PStr "Paris")];
              parsed_intent :=
                Some (PDict [("parameters", PDict [("location", PStr "Paris")])]) |}
  /\ answers_without_tool env_no_tool_name_key "Paris?" (PDict [("location", PStr "Paris")])
  /\ outcome (parse_intent env_no_parameters_key "How's the weather?")
     = inr {| tool_to_use := PStr "get_weather"; parameters := PDict [];
              parsed_intent := Some (PDict [("tool_name", PStr "get_weather")]) |}.
Proof.
  destruct (classification_failure_answers_without_tool env_llm_down "Tell me a joke.")
    as (Hnone & _ & _).
  destruct (Hnone None (llm_raises env_llm_down "Tell me a joke." OtherError eq_refl))
    as (Hparse & _ & _ & Hrun).
  destruct (classification_failure_answers_without_tool env_no_tool_name_key "Paris?")
    as (_ & Hname & _).
  destruct (Hname text_no_tool_name_key [("parameters", PDict [("location", PStr "Paris")])]
              eq_refl eq_refl eq_refl) as (Hparse2 & Hrun2).
  destruct (classification_failure_answers_without_tool env_no_parameters_key
              "How's the weather?") as (_ & _ & Hparams).
  pose proof (Hparams text_no_parameters_key [("tool_name", PStr "get_weather")]
                eq_refl eq_refl eq_refl) as Hparse3.
  split; [exact Hparse | split; [exact Hrun | split; [exact Hparse2 | split]]].
  - exact Hrun2.
  - exact Hparse3.
Defined.

Lemma blank_query_rejected_witness :
  reply_status (snd (handle_agent_request env_paris (" " ++ nl ++ " "))) = 400%Z
  /\ fst (handle_agent_request env_paris (" " ++ nl ++ " ")) = [].
Proof.
  apply (blank_query_rejected env_paris (" " ++ nl ++ " ")). reflexivity.
Defined.

Lemma get_weather_city_not_found_witness :
  outcome (get_weather (weather_env (upstream_json 404 (PDict not_found_body)))
             (PStr "Atlantis"))
  = inr "Error: Sorry, I couldn't find weather data for the city 'Atlantis'. Please check the spelling.".
Proof.
  exact (get_weather_city_not_found (weather_env (upstream_json 404 (PDict not_found_body)))
           "Atlantis" {| status_code := 404; json := inr (PDict not_found_body) |}
           not_found_body ltac:(vm_compute; discriminate) eq_refl eq_refl eq_refl eq_refl).
Defined.

Lemma get_weather_api_error_witness :
  outcome (get_weather (weather_env (upstream_json 401 (PDict bad_key_body))) (PStr "Paris"))
  = inr "Error: Could not retrieve weather data. API reported: Invalid API key.".
Proof.
  exact (get_weather_api_error (weather_env (upstream_json 401 (PDict bad_key_body)))
           "Paris" {| status_code := 401; json := inr (PDict bad_key_body) |}
           bad_key_body ltac:(vm_compute; discriminate) eq_refl eq_refl
           eq_refl eq_refl eq_refl).
Defined.

Lemma get_weather_server_error_witness :
  outcome (get_weather (weather_env (upstream_json 503 (PDict paris_body))) (PStr "Paris"))
  = inr err_connection.
Proof.
  apply (get_weather_server_error (weather_env (upstream_json 503 (PDict paris_body)))
           "Paris" {| status_code := 503; json := inr (PDict paris_body) |}).
  - vm_compute. discriminate.
  - reflexivity.
  - cbn. lia.
Defined.

Lemma get_weather_body_not_object_witness :
  outcome (get_weather (weather_env (upstream_json 200 (PList []))) (PStr "Paris"))
  = inr err_unexpected.
Proof.
  apply (get_weather_body_not_object (weather_env (upstream_json 200 (PList [])))
           "Paris" {| status_code := 200; json := inr (PList []) |} (PList [])).
  - vm_compute. discriminate.
  - reflexivity.
  - cbn. lia.
  - reflexivity.
  - discriminate.
Defined.

Lemma get_weather_weather_object_witness :
  outcome (get_weather (weather_env (upstream_json 200 (PDict weather_object_body)))
             (PStr "Paris"))
  = inr err_format.
Proof.
  apply (get_weather_weather_object
           (weather_env (upstream_json 200 (PDict weather_object_body)))
           "Paris" {| status_code := 200; json := inr (PDict weather_object_body) |}
           weather_object_body [] ("description", PStr "clear sky") []).
  - vm_compute. discriminate.
  - reflexivity.
  - cbn. lia.
  - reflexivity.
  - reflexivity.
  - reflexivity.
  - reflexivity.
Defined.



Lemma non_string_location_fails_tool_witness :
  exists res,
    run_agent env_number_location "Weather in 75001?"
    = ([LlmCall (intent_prompt env_number_location "Weather in 75001?");
        ToolCall "get_weather" (PDict number_params);
        LlmCall (tool_result_prompt env_number_location "Weather in 75001?"
                   (PStr "get_weather") (PDict number_params)
                   (err_tool_failed env_number_location (PStr "get_weather")))],
       inr res)
    /\ debug_tool_result (debug res)
       = err_tool_failed env_number_location (PStr "get_weather").
Proof.
  apply (non_string_location_fails_tool env_number_location "Weather in 75001?"
           (parsed_as (PStr "get_weather") (PDict number_params)) number_params
           (PInt 75001)).
  - vm_compute; reflexivity.
  - reflexivity.
  - reflexivity.
  - reflexivity.
  - reflexivity.
  - reflexivity.
  - discriminate.
Defined.


Lemma no_tool_selected_conversational_witness :
  exists res,
    run_agent env_none "Tell me a joke."
    = ([LlmCall (intent_prompt env_none "Tell me a joke.");
        LlmCall (no_tool_prompt "Tell me a joke.")], inr res)
    /\ debug_tool_called (debug res) = PStr "none"
    /\ debug_tool_result (debug res) = "N/A"
    /\ debug_tool_parameters (debug res) = PDict [].
Proof.
  apply (no_tool_selected_conversational env_none "Tell me a joke."
           (parsed_as (PStr "none") (PDict []))).
  - vm_compute; reflexivity.
  - now right.
Defined.

Lemma tool_called_reported_without_call_witness :
  exists res,
    outcome (run_agent env_unknown_tool "Send an email to Ann") = inr res
    /\ debug_tool_called (debug res) = PStr "send_email"
    /\ filter is_tool_call (trace (run_agent env_unknown_tool "Send an email to Ann")) = [].
Proof.
  apply (tool_called_reported_without_call env_unknown_tool "Send an email to Ann"
           (parsed_as (PStr "send_email") (PDict [])) "send_email").
  - vm_compute; reflexivity.
  - reflexivity.
  - discriminate.
  - discriminate.
  - now left.
Defined.

Lemma paris_run_returns :
  exists res, outcome (run_agent env_paris "What's the weather like in Paris?") = inr res.
Proof. eexists. vm_compute. reflexivity. Defined.

Lemma final_answer_or_fallback_witness :
  exists res prompt,
    outcome (run_agent env_paris "What's the weather like in Paris?") = inr res
    /\ last (trace (run_agent env_paris "What's the weather like in Paris?")) (LlmCall "")
       = LlmCall prompt
    /\ response res = match generate_content env_paris prompt with
                      | inr (Some text) => strip text
                      | _ => final_answer_fallback
                      end.
Proof.
  destruct paris_run_returns as (res & Hres).
  destruct (final_answer_or_fallback env_paris "What's the weather like in Paris?" res Hres)
    as (prompt & Hlast & Hresponse).
  exists res, prompt. split; [exact Hres | split; [exact Hlast | exact Hresponse]].
Defined.

Lemma endpoint_status_witness :
  reply_status (snd (handle_agent_request env_paris "What's the weather like in Paris?"))
  = 200%Z
  /\ reply_status (snd (handle_agent_request env_null_params "How's the weather?")) = 500%Z.
Proof.
  split.
  - apply (endpoint_status env_paris "What's the weather like in Paris?"
             (parsed_as (PStr "get_weather") (PDict paris_params))).
    vm_compute; reflexivity.
  - apply (endpoint_status env_null_params "How's the weather?"
             (parsed_as (PStr "get_weather") PNone)).
    vm_compute; reflexivity.
Defined.

Lemma clean_without_fence_witness :
  clean_response_text (" " ++ paris_text ++ nl) = paris_text.
Proof.
  rewrite (clean_without_fence (" " ++ paris_text ++ nl)); vm_compute; reflexivity.
Defined.

Lemma fenced_reply_classified_witness :
  parse_intent env_paris "What's the weather like in Paris?"
  = ([LlmCall (intent_prompt env_paris "What's the weather like in Paris?")],
     inr (parsed_as (PStr "get_weather") (PDict paris_params))).
Proof.
  apply (fenced_reply_classified env_paris "What's the weather like in Paris?"
           (nl ++ paris_text ++ nl)
           [("tool_name", PStr "get_weather"); ("parameters", PDict paris_params)]);
    vm_compute; reflexivity.
Defined.
